(** * CuraCloud: access control, validation and storage of the REST backend

    A shallow embedding of [shared/schema.ts], [server/storage.ts] and
    [server/routes.ts].  Documents are records, Mongo collections are lists in
    insertion order, the asynchronous storage methods become functions in a
    small state-and-exception monad over the store, and each Express route is
    the chain of its middlewares followed by its [try]/[catch] handler.  The
    client's form schemas, request builders, [ProtectedRoute] and
    [FileUpload] are embedded as far as the server-facing properties need
    them. *)

From Stdlib Require Import List String Ascii ZArith Bool Arith Lia.
From Stdlib Require Import DecimalString DecimalNat Sorted Permutation.
Import ListNotations.
Open Scope string_scope.

#[local] Set Warnings "-register-all".

(** ** Values of a request body *)

(** What [req.body] and its properties can hold once the body parser has run.
    Numbers are carried as integers: the schemas only test [typeof]. *)
Inductive JSON : Type :=
| JUndefined
| JNull
| JBool (b : bool)
| JNum (n : Z)
| JStr (s : string)
| JArr (items : list JSON)
| JObj (fields : list (string * JSON)).

(** [req.body] is the object the body parser leaves on the request: a list of
    properties, where the first binding of a key is the one a property access
    sees and an absent key reads as [undefined]. *)
Definition Body := list (string * JSON).

Fixpoint prop (o : Body) (k : string) : JSON :=
  match o with
  | [] => JUndefined
  | (k', v) :: rest => if String.eqb k' k then v else prop rest k
  end.

(** [{ ...o, k: v }] *)
Definition spread (o : Body) (k : string) (v : JSON) : Body := (k, v) :: o.

(** [v === s] and [v !== s] for a string [s]. *)
Definition strictEq (v : JSON) (s : string) : bool :=
  match v with
  | JStr t => String.eqb t s
  | _ => false
  end.

(** JavaScript truthiness, as used by [description || '']. *)
Definition truthy (v : JSON) : bool :=
  match v with
  | JUndefined | JNull => false
  | JBool b => b
  | JNum n => negb (Z.eqb n 0)
  | JStr s => negb (String.eqb s "")
  | JArr _ | JObj _ => true
  end.

(** ** shared/schema.ts *)

Inductive Role : Type := patient | doctor | admin.

Definition roleName (r : Role) : string :=
  match r with
  | patient => "patient"
  | doctor => "doctor"
  | admin => "admin"
  end.

Definition Role_eqb (a b : Role) : bool :=
  match a, b with
  | patient, patient | doctor, doctor | admin, admin => true
  | _, _ => false
  end.

(** Times are milliseconds since the epoch. *)
Definition Date := Z.
Bind Scope Z_scope with Date.

Module InsertUser.
Record t : Type := mk
  { name : string; email : string; password : string; role : Role;
    verified : bool; specialty : option string }.
Definition set_verified (b : bool) (u : t) : t :=
  mk (name u) (email u) (password u) (role u) b (specialty u).
End InsertUser.

Module User.
Record t : Type := mk
  { _id : string; name : string; email : string; password : string;
    role : Role; verified : bool; specialty : option string;
    createdAt : Date }.
Definition set_verified (b : bool) (u : t) : t :=
  mk (_id u) (name u) (email u) (password u) (role u) b (specialty u)
     (createdAt u).
End User.

Module InsertRecord.
Record t : Type := mk
  { patientId : string; filename : string; filePath : string;
    description : string; fileType : string; fileSize : Z }.
End InsertRecord.

Module MedRecord.
Record t : Type := mk
  { _id : string; patientId : string; filename : string; filePath : string;
    description : string; fileType : string; fileSize : Z;
    uploadDate : Date }.
End MedRecord.

Module InsertAccess.
Record t : Type := mk
  { patientId : string; doctorId : string; granted : bool }.
End InsertAccess.

Module Access.
Record t : Type := mk
  { _id : string; patientId : string; doctorId : string; granted : bool;
    grantedAt : Date }.
End Access.

Module InsertNote.
Record t : Type := mk
  { doctorId : string; patientId : string; consultationType : string;
    content : string; diagnosis : option string;
    nextAppointment : option string }.
End InsertNote.

Module Note.
Record t : Type := mk
  { _id : string; doctorId : string; patientId : string;
    consultationType : string; content : string;
    diagnosis : option string; nextAppointment : option string;
    createdAt : Date }.
End Note.

(** *** zod field checks *)

(** [z.string()] *)
Definition zString (v : JSON) : option string :=
  match v with
  | JStr s => Some s
  | _ => None
  end.

(** [z.string().min(n)] *)
Definition zStringMin (n : nat) (v : JSON) : option string :=
  match v with
  | JStr s => if Nat.leb n (String.length s) then Some s else None
  | _ => None
  end.

(** [z.string().optional()] *)
Definition zStringOptional (v : JSON) : option (option string) :=
  match v with
  | JUndefined => Some None
  | JStr s => Some (Some s)
  | _ => None
  end.

(** [z.boolean().default(d)] *)
Definition zBooleanDefault (d : bool) (v : JSON) : option bool :=
  match v with
  | JUndefined => Some d
  | JBool b => Some b
  | _ => None
  end.

(** [z.number()] *)
Definition zNumber (v : JSON) : option Z :=
  match v with
  | JNum n => Some n
  | _ => None
  end.

(** [z.enum(['patient', 'doctor', 'admin'])] *)
Definition zRole (v : JSON) : option Role :=
  match v with
  | JStr s =>
      if String.eqb s "patient" then Some patient
      else if String.eqb s "doctor" then Some doctor
      else if String.eqb s "admin" then Some admin
      else None
  | _ => None
  end.

(** ** Exceptions and the storage monad *)

(** What a [catch] block can receive: a [ZodError] with the paths of the
    offending properties. *)
Inductive Exn : Type :=
| ZodError (issues : list string).

Inductive Result (A : Type) : Type :=
| Ok (a : A)
| Throw (e : Exn).
Arguments Ok {A} a.
Arguments Throw {A} e.

Definition issue {A : Type} (k : string) (r : option A) : list string :=
  match r with
  | Some _ => []
  | None => [k]
  end.

Record Store : Type := mkStore
  { users : list User.t;
    records : list MedRecord.t;
    access : list Access.t;
    notes : list Note.t;
    nextId : nat }.

Definition emptyStore : Store := mkStore [] [] [] [] 0.

Definition M (A : Type) : Type := Store -> Store * Result A.

Definition ret {A : Type} (a : A) : M A := fun s => (s, Ok a).

Definition bind {A B : Type} (m : M A) (k : A -> M B) : M B :=
  fun s =>
    match m s with
    | (s', Ok a) => k a s'
    | (s', Throw e) => (s', Throw e)
    end.

Definition throw {A : Type} (e : Exn) : M A := fun s => (s, Throw e).

(** [try { m } catch (error) { h error }] *)
Definition tryCatch {A : Type} (m : M A) (h : Exn -> M A) : M A :=
  fun s =>
    match m s with
    | (s', Ok a) => (s', Ok a)
    | (s', Throw e) => h e s'
    end.

Definition liftResult {A : Type} (r : Result A) : M A := fun s => (s, r).

Declare Scope storage_scope.
Delimit Scope storage_scope with storage.
Notation "x <- m ;; k" := (bind m (fun x => k))
  (at level 61, m at next level, right associativity) : storage_scope.
Open Scope storage_scope.

(** ** Mongo collections *)

Section Collection.
Context {D : Type}.

(** [insertOne]: documents keep their insertion order. *)
Definition insertOne (d : D) (c : list D) : list D := c ++ [d].

(** [findOne(filter)]: the first document that matches. *)
Definition findOne (f : D -> bool) (c : list D) : option D := find f c.

(** [deleteOne(filter)]: removes the first document that matches, if any. *)
Fixpoint deleteOne (f : D -> bool) (c : list D) : list D :=
  match c with
  | [] => []
  | d :: rest => if f d then rest else d :: deleteOne f rest
  end.

(** [updateOne(filter, { $set })] *)
Fixpoint updateOne (f : D -> bool) (g : D -> D) (c : list D) : list D :=
  match c with
  | [] => []
  | d :: rest => if f d then g d :: rest else d :: updateOne f g rest
  end.

(** [find(filter).toArray()] *)
Definition findAll (f : D -> bool) (c : list D) : list D := filter f c.

(** [.sort({ key: -1 })], as an insertion sort on a date key that keeps
  documents of equal key in collection order. *)
Fixpoint insertDesc (key : D -> Date) (d : D) (c : list D) : list D :=
  match c with
  | [] => [d]
  | x :: rest =>
      if (key x <=? key d)%Z then d :: x :: rest
      else x :: insertDesc key d rest
  end.

Definition sortDesc (key : D -> Date) (c : list D) : list D :=
  fold_right (insertDesc key) [] c.
End Collection.

(** The driver creates a fresh [ObjectId] for each inserted document; only its
    string form is ever seen by the routes.  The model draws ids from a
    counter kept in the store. *)
Definition oidString (n : nat) : string :=
  NilEmpty.string_of_uint (Nat.to_uint n).

(** ** Sessions, responses and middlewares (server/routes.ts) *)

Module SessionUser.
Record t : Type := mk
  { _id : string; email : string; role : string; name : string;
    verified : bool }.
End SessionUser.

(** [req.session.user] *)
Definition Session := option SessionUser.t.

Inductive Payload : Type :=
| NoPayload
| ErrorP (error : Exn)
| UserIdP (userId : string)
| UserP (user : SessionUser.t)
| RecordP (record : MedRecord.t)
| RecordsP (records : list MedRecord.t)
| AccessP (access : Access.t)
| NoteP (note : Note.t).

Record Response : Type := mkResponse
  { status : nat; message : option string; payload : Payload }.

(** [res.status(c).json({ message })] *)
Definition reply (c : nat) (m : string) : Response :=
  mkResponse c (Some m) NoPayload.

(** [res.status(c).json({ message, error: error.message })] *)
Definition replyError (c : nat) (m : string) (e : Exn) : Response :=
  mkResponse c (Some m) (ErrorP e).

(** A middleware either answers the request or calls [next()]; the guards
    hand the session user over to what follows. *)
Definition requireAuth (sess : Session) : Response + SessionUser.t :=
  match sess with
  | None => inl (reply 401 "Authentication required")
  | Some u => inr u
  end.

Definition requireRole (roles : list string) (sess : Session)
  : Response + SessionUser.t :=
  match sess with
  | None => inl (reply 403 "Insufficient permissions")
  | Some u =>
      if existsb (String.eqb (SessionUser.role u)) roles then inr u
      else inl (reply 403 "Insufficient permissions")
  end.

(** [app.METHOD(path, requireAuth, requireRole(roles), handler)] *)
Definition guarded {A : Type} (roles : list string) (sess : Session)
  (answer : Response -> A) (handler : SessionUser.t -> M A) : M A :=
  match requireAuth sess with
  | inl r => ret (answer r)
  | inr _ =>
      match requireRole roles sess with
      | inl r => ret (answer r)
      | inr u => handler u
      end
  end.

(** ** File uploads (the multer configuration of server/routes.ts) *)

Module File.
Record t : Type := mk
  { fieldname : string; originalname : string; mimetype : string;
    size : Z; path : string }.
End File.

Inductive UploadError : Type :=
| LIMIT_UNEXPECTED_FILE
| LIMIT_FILE_SIZE
| FilterError (reason : string).

Definition allowedTypes : list string :=
  ["application/pdf"; "image/jpeg"; "image/png"; "image/jpg"].

Definition fileFilter (file : File.t) : option UploadError :=
  if existsb (String.eqb (File.mimetype file)) allowedTypes then None
  else Some (FilterError
               "Invalid file type. Only PDF, JPG, and PNG files are allowed.").

Definition fileSizeLimit : Z := 10 * 1024 * 1024.

(** [upload.single(field)], following multer's contract: a file part under
    another field name is refused, then [fileFilter] decides, then the part
    is written out and refused once it has more than [limits.fileSize] bytes.
    A refusal is passed to [next(err)]: the route handler is not called.
    [inr None] is a request without a file part. *)
Definition upload_single (field : string) (part : option File.t)
  : UploadError + option File.t :=
  match part with
  | None => inr None
  | Some f =>
      if negb (String.eqb (File.fieldname f) field) then
        inl LIMIT_UNEXPECTED_FILE
      else
        match fileFilter f with
        | Some e => inl e
        | None =>
            if (fileSizeLimit <? File.size f)%Z then inl LIMIT_FILE_SIZE
            else inr (Some f)
        end
  end.

(** How a route with an upload middleware ends: with a response of its own,
    or with an error handed to Express. *)
Inductive Outcome : Type :=
| Responded (r : Response)
| Forwarded (e : UploadError).

(** ** The client: route protection and file selection
    (ProtectedRoute.tsx, file-upload.tsx) *)

(** What [ProtectedRoute] renders: the loading spinner, [null], or its
    children. *)
Inductive Rendered : Type := Spinner | Nothing | Children.

(** The dashboard a user of a given role is sent to. *)
Definition redirectPath (role : string) : string :=
  if String.eqb role "doctor" then "/doctor/overview"
  else if String.eqb role "admin" then "/admin/overview"
  else "/dashboard/overview".

(** The location the two effects of [ProtectedRoute] set, if any. *)
Definition ProtectedRoute_redirect (isLoading : bool)
  (user : option SessionUser.t) (requiredRole : option Role)
  : option string :=
  match user with
  | None => if negb isLoading then Some "/" else None
  | Some u =>
      match requiredRole with
      | Some r =>
          if negb (String.eqb (SessionUser.role u) (roleName r))
          then Some (redirectPath (SessionUser.role u))
          else None
      | None => None
      end
  end.

Definition ProtectedRoute_render (isLoading : bool)
  (user : option SessionUser.t) (requiredRole : option Role) : Rendered :=
  if isLoading then Spinner
  else
    match user with
    | None => Nothing
    | Some u =>
        match requiredRole with
        | Some r =>
            if negb (String.eqb (SessionUser.role u) (roleName r))
            then Nothing
            else Children
        | None => Children
        end
    end.

(** A file as the browser hands it to [FileUpload]. *)
Module BrowserFile.
Record t : Type := mk { name : string; type : string; size : Z }.
End BrowserFile.

(** The default of the [maxSize] property. *)
Definition defaultMaxSize : Z := 10 * 1024 * 1024.

(** [handleFileSelect]: the file passed on to [onFileSelect], if any. *)
Definition handleFileSelect (maxSize : Z) (file : BrowserFile.t)
  : option BrowserFile.t :=
  if (maxSize <? BrowserFile.size file)%Z then None else Some file.

(** The file part the patient dashboard sends with
    [formData.append('file', file)], stored by the server under [path]. *)
Definition uploadedPart (file : BrowserFile.t) (path : string) : File.t :=
  File.mk "file" (BrowserFile.name file) (BrowserFile.type file)
    (BrowserFile.size file) path.

(** ** The client: forms (pages/auth.tsx, pages/doctor-dashboard.tsx,
    lib/auth.ts) *)

Module LoginFormData.
Record t : Type := mk { email : string; password : string; role : Role }.
End LoginFormData.

Module RegisterFormData.
Record t : Type := mk
  { name : string; email : string; password : string; role : Role;
    specialty : option string }.
End RegisterFormData.

Module NoteFormData.
Record t : Type := mk
  { patientId : string; consultationType : string; content : string;
    diagnosis : option string; nextAppointment : option string }.
End NoteFormData.

(** An optional property of an object sent as JSON: absent when
    [undefined]. *)
Definition optionalProp (k : string) (v : option string) : Body :=
  match v with
  | Some x => [(k, JStr x)]
  | None => []
  end.

(** [login(email, password, role)] posts [{ email, password, role }]. *)
Definition loginRequest (d : LoginFormData.t) : Body :=
  [("email", JStr (LoginFormData.email d));
   ("password", JStr (LoginFormData.password d));
   ("role", JStr (roleName (LoginFormData.role d)))].

(** [register(userData)] posts the form data. *)
Definition registerRequest (d : RegisterFormData.t) : Body :=
  ([("name", JStr (RegisterFormData.name d));
    ("email", JStr (RegisterFormData.email d));
    ("password", JStr (RegisterFormData.password d));
    ("role", JStr (roleName (RegisterFormData.role d)))]
   ++ optionalProp "specialty" (RegisterFormData.specialty d))%list.

(** [handleAddNote]: nothing is sent without a selected patient; otherwise
    [{ ...data, patientId: selectedPatient._id }]. *)
Definition handleAddNote (selectedPatient : option string)
  (data : NoteFormData.t) : option Body :=
  match selectedPatient with
  | None => None
  | Some pid =>
      Some ([("patientId", JStr pid);
             ("consultationType", JStr (NoteFormData.consultationType data));
             ("content", JStr (NoteFormData.content data))]
            ++ optionalProp "diagnosis" (NoteFormData.diagnosis data)
            ++ optionalProp "nextAppointment"
                 (NoteFormData.nextAppointment data))%list
  end.

(** ** Sample data for the worked examples *)

(** A stand-in for the email format test, and a database without query
    operators. *)
Definition hasAt (s : string) : bool :=
  match index 0 "@" s with
  | Some _ => true
  | None => false
  end.

Definition noOperators (fs : list (string * JSON)) (field : string) : bool :=
  false.


Definition alice : SessionUser.t :=
  SessionUser.mk "1" "alice@example.org" "patient" "Alice" true.

Definition drBob : SessionUser.t :=
  SessionUser.mk "2" "bob@example.org" "doctor" "Bob" true.

Definition aliceUser : User.t :=
  User.mk "1" "Alice" "alice@example.org" "secret1" patient true None 100.

Definition bobUser : User.t :=
  User.mk "2" "Bob" "bob@example.org" "secret2" doctor true
    (Some "cardiology") 200.

Definition carolUser : User.t :=
  User.mk "3" "Carol" "carol@example.org" "secret3" doctor false None 300.

Definition grantAliceBob : Access.t := Access.mk "4" "1" "2" true 400.

Definition sampleStore : Store :=
  mkStore [aliceUser; bobUser; carolUser] [] [grantAliceBob] [] 5.

(** The same users before any grant. *)
Definition ungrantedStore : Store :=
  mkStore [aliceUser; bobUser; carolUser] [] [] [] 4.

(** Two Access documents for one pair, as two overlapping grants leave
    them. *)
Definition duplicateStore : Store :=
  mkStore [aliceUser; bobUser] []
    [grantAliceBob; Access.mk "5" "1" "2" true 500] [] 6.

Definition registerBody : Body :=
  [("name", JStr "Dan"); ("email", JStr "dan@example.org");
   ("password", JStr "secret4"); ("role", JStr "patient");
   ("verified", JBool true)].

Definition recordBody : Body :=
  [("patientId", JStr "2"); ("filename", JStr "scan.pdf");
   ("filePath", JStr "uploads/scan.pdf"); ("description", JStr "x-ray");
   ("fileType", JStr "application/pdf"); ("fileSize", JNum 2048)].

Definition noteBody : Body :=
  [("patientId", JStr "3"); ("consultationType", JStr "follow-up");
   ("content", JStr "stable")].

Definition textFile : File.t :=
  File.mk "file" "notes.txt" "text/plain" 12 "uploads/file-1-2.txt".

Definition root : SessionUser.t :=
  SessionUser.mk "9" "root@example.org" "admin" "Root" true.


Definition carolLogin : Body :=
  [("email", JStr "carol@example.org"); ("password", JStr "secret3");
   ("role", JStr "doctor")].

Definition danForm : RegisterFormData.t :=
  RegisterFormData.mk "Dan" "dan@example.org" "secret4" patient None.

Definition noteForm : NoteFormData.t :=
  NoteFormData.mk "" "follow-up" "stable for two weeks" (Some "") None.

Definition scanFile : BrowserFile.t :=
  BrowserFile.mk "scan.pdf" "application/pdf" 2048.

Definition scanPart : File.t :=
  File.mk "file" "scan.pdf" "application/pdf" 2048 "uploads/file-1-2.pdf".

Section Server.

(** The format test behind zod's [.email()]. *)
Variable isEmail : string -> bool.

(** How the database evaluates a document given as the value of a filter
    property (operators such as [$ne]) against a string field. *)
Variable queryOperator : list (string * JSON) -> string -> bool.

(** [z.string().email()] *)
Definition zEmail (v : JSON) : option string :=
  match v with
  | JStr s => if isEmail s then Some s else None
  | _ => None
  end.

Definition insertUserSchema (o : Body) : Result InsertUser.t :=
  let name := zStringMin 1 (prop o "name") in
  let email := zEmail (prop o "email") in
  let password := zStringMin 6 (prop o "password") in
  let role := zRole (prop o "role") in
  let verified := zBooleanDefault false (prop o "verified") in
  let specialty := zStringOptional (prop o "specialty") in
  match name, email, password, role, verified, specialty with
  | Some n, Some e, Some p, Some r, Some v, Some sp =>
      Ok (InsertUser.mk n e p r v sp)
  | _, _, _, _, _, _ =>
      Throw (ZodError (issue "name" name ++ issue "email" email
                       ++ issue "password" password ++ issue "role" role
                       ++ issue "verified" verified
                       ++ issue "specialty" specialty))
  end.

Definition insertRecordSchema (o : Body) : Result InsertRecord.t :=
  let patientId := zString (prop o "patientId") in
  let filename := zString (prop o "filename") in
  let filePath := zString (prop o "filePath") in
  let description := zString (prop o "description") in
  let fileType := zString (prop o "fileType") in
  let fileSize := zNumber (prop o "fileSize") in
  match patientId, filename, filePath, description, fileType, fileSize with
  | Some p, Some f, Some fp, Some d, Some ft, Some fs =>
      Ok (InsertRecord.mk p f fp d ft fs)
  | _, _, _, _, _, _ =>
      Throw (ZodError (issue "patientId" patientId
                       ++ issue "filename" filename
                       ++ issue "filePath" filePath
                       ++ issue "description" description
                       ++ issue "fileType" fileType
                       ++ issue "fileSize" fileSize))
  end.

Definition insertAccessSchema (o : Body) : Result InsertAccess.t :=
  let patientId := zString (prop o "patientId") in
  let doctorId := zString (prop o "doctorId") in
  let granted := zBooleanDefault true (prop o "granted") in
  match patientId, doctorId, granted with
  | Some p, Some d, Some g => Ok (InsertAccess.mk p d g)
  | _, _, _ =>
      Throw (ZodError (issue "patientId" patientId
                       ++ issue "doctorId" doctorId
                       ++ issue "granted" granted))
  end.

Definition insertNoteSchema (o : Body) : Result InsertNote.t :=
  let doctorId := zString (prop o "doctorId") in
  let patientId := zString (prop o "patientId") in
  let consultationType := zString (prop o "consultationType") in
  let content := zString (prop o "content") in
  let diagnosis := zStringOptional (prop o "diagnosis") in
  let nextAppointment := zStringOptional (prop o "nextAppointment") in
  match doctorId, patientId, consultationType, content, diagnosis,
        nextAppointment with
  | Some d, Some p, Some ct, Some c, Some dg, Some na =>
      Ok (InsertNote.mk d p ct c dg na)
  | _, _, _, _, _, _ =>
      Throw (ZodError (issue "doctorId" doctorId
                       ++ issue "patientId" patientId
                       ++ issue "consultationType" consultationType
                       ++ issue "content" content
                       ++ issue "diagnosis" diagnosis
                       ++ issue "nextAppointment" nextAppointment))
  end.

(** ** server/storage.ts *)

(** Equality match of a filter value against a string field.  A filter value
    taken from an unvalidated request body may be any JSON value. *)
Definition bsonMatch (v : JSON) (field : string) : bool :=
  match v with
  | JStr t => String.eqb t field
  | JObj fs => queryOperator fs field
  | _ => false
  end.

(** The inserting methods read the clock twice: [now] stamps the document
    that is stored, and [later], read once the insert has completed, stamps
    the copy that is returned. *)
Definition getUserByEmail (email : JSON) : M (option User.t) :=
  fun s => (s, Ok (findOne (fun u => bsonMatch email (User.email u)) (users s))).

Definition createUser (now later : Date) (user : InsertUser.t) : M User.t :=
  fun s =>
    let stamped (t : Date) :=
      User.mk (oidString (nextId s)) (InsertUser.name user)
        (InsertUser.email user) (InsertUser.password user)
        (InsertUser.role user) (InsertUser.verified user)
        (InsertUser.specialty user) t in
    (mkStore (insertOne (stamped now) (users s)) (records s) (access s)
       (notes s) (S (nextId s)),
     Ok (stamped later)).

(** The id is compared in its string form; a string the driver does not
    accept as an [ObjectId] selects no document. *)
Definition updateUserVerification (id : string) (verified : bool) : M unit :=
  fun s =>
    (mkStore
       (updateOne (fun u => String.eqb id (User._id u))
          (User.set_verified verified) (users s))
       (records s) (access s) (notes s) (nextId s),
     Ok tt).

Definition createRecord (now later : Date) (record : InsertRecord.t)
  : M MedRecord.t :=
  fun s =>
    let stamped (t : Date) :=
      MedRecord.mk (oidString (nextId s)) (InsertRecord.patientId record)
        (InsertRecord.filename record) (InsertRecord.filePath record)
        (InsertRecord.description record) (InsertRecord.fileType record)
        (InsertRecord.fileSize record) t in
    (mkStore (users s) (insertOne (stamped now) (records s)) (access s)
       (notes s) (S (nextId s)),
     Ok (stamped later)).

Definition getRecordsByPatient (patientId : string) : M (list MedRecord.t) :=
  fun s =>
    (s, Ok (sortDesc MedRecord.uploadDate
              (findAll (fun r => String.eqb patientId (MedRecord.patientId r))
                 (records s)))).

(** The filter [{ patientId, doctorId }] *)
Definition pairFilter (patientId : string) (doctorId : JSON) (a : Access.t)
  : bool :=
  String.eqb patientId (Access.patientId a)
  && bsonMatch doctorId (Access.doctorId a).

Definition grantAccess (now later : Date) (access0 : InsertAccess.t)
  : M Access.t :=
  fun s =>
    let remaining :=
      deleteOne (pairFilter (InsertAccess.patientId access0)
                   (JStr (InsertAccess.doctorId access0))) (access s) in
    let stamped (t : Date) :=
      Access.mk (oidString (nextId s)) (InsertAccess.patientId access0)
        (InsertAccess.doctorId access0) (InsertAccess.granted access0) t in
    (mkStore (users s) (records s) (insertOne (stamped now) remaining)
       (notes s) (S (nextId s)),
     Ok (stamped later)).

Definition revokeAccess (patientId : string) (doctorId : JSON) : M unit :=
  fun s =>
    (mkStore (users s) (records s)
       (deleteOne (pairFilter patientId doctorId) (access s)) (notes s)
       (nextId s),
     Ok tt).

Definition checkAccess (patientId doctorId : string) : M bool :=
  fun s =>
    (s,
     Ok (match findOne (fun a => pairFilter patientId (JStr doctorId) a
                                 && Access.granted a) (access s) with
         | Some _ => true
         | None => false
         end)).

Definition createNote (now later : Date) (note : InsertNote.t) : M Note.t :=
  fun s =>
    let stamped (t : Date) :=
      Note.mk (oidString (nextId s)) (InsertNote.doctorId note)
        (InsertNote.patientId note) (InsertNote.consultationType note)
        (InsertNote.content note) (InsertNote.diagnosis note)
        (InsertNote.nextAppointment note) t in
    (mkStore (users s) (records s) (access s)
       (insertOne (stamped now) (notes s)) (S (nextId s)),
     Ok (stamped later)).

(** ** server/routes.ts *)

(** [POST /api/register] *)
Definition post_register (now later : Date) (body : Body) : M Response :=
  tryCatch
    (userData <- liftResult (insertUserSchema body) ;;
     existingUser <- getUserByEmail (JStr (InsertUser.email userData)) ;;
     match existingUser with
     | Some _ => ret (reply 400 "User already exists with this email")
     | None =>
         let userData :=
           InsertUser.set_verified
             (Role_eqb (InsertUser.role userData) admin) userData in
         user <- createUser now later userData ;;
         ret (mkResponse 201 (Some "User registered successfully")
                (UserIdP (User._id user)))
     end)
    (fun error => ret (replyError 400 "Registration failed" error)).

(** [POST /api/login]: the response and the session as it leaves the
    handler. *)
Definition post_login (sess : Session) (body : Body)
  : M (Response * Session) :=
  tryCatch
    (let email := prop body "email" in
     let password := prop body "password" in
     let role := prop body "role" in
     found <- getUserByEmail email ;;
     match found with
     | None => ret (reply 401 "Invalid credentials", sess)
     | Some user =>
         if negb (strictEq password (User.password user))
            || negb (strictEq role (roleName (User.role user)))
         then ret (reply 401 "Invalid credentials", sess)
         else if negb (User.verified user)
         then ret (reply 401 "Account pending verification", sess)
         else
           let su :=
             SessionUser.mk (User._id user) (User.email user)
               (roleName (User.role user)) (User.name user)
               (User.verified user) in
           ret (mkResponse 200 (Some "Login successful") (UserP su), Some su)
     end)
    (fun error => ret (replyError 500 "Login failed" error, sess)).

(** [POST /api/records] *)
Definition post_records (now later : Date) (sess : Session) (body : Body)
  : M Response :=
  guarded ["patient"] sess id (fun user =>
    tryCatch
      (recordData <-
         liftResult
           (insertRecordSchema
              (spread body "patientId" (JStr (SessionUser._id user)))) ;;
       record <- createRecord now later recordData ;;
       ret (mkResponse 200 (Some "Record created successfully")
              (RecordP record)))
      (fun error => ret (replyError 500 "Failed to create record" error))).

(** [POST /api/upload]: [part] is the file part of the multipart request and
    [fields] its text fields. *)
Definition post_upload (now later : Date) (sess : Session) (part : option File.t)
  (fields : Body) : M Outcome :=
  guarded ["patient"] sess Responded (fun user =>
    match upload_single "file" part with
    | inl err => ret (Forwarded err)
    | inr file =>
        tryCatch
          (match file with
           | None => ret (Responded (reply 400 "No file uploaded"))
           | Some f =>
               let description := prop fields "description" in
               recordData <-
                 liftResult
                   (insertRecordSchema
                      [("patientId", JStr (SessionUser._id user));
                       ("filename", JStr (File.originalname f));
                       ("filePath", JStr (File.path f));
                       ("description",
                         if truthy description then description else JStr "");
                       ("fileType", JStr (File.mimetype f));
                       ("fileSize", JNum (File.size f))]) ;;
               record <- createRecord now later recordData ;;
               ret (Responded
                      (mkResponse 200 (Some "File uploaded successfully")
                         (RecordP record)))
           end)
          (fun error => ret (Responded (replyError 500 "Upload failed" error)))
    end).

(** [POST /api/grant-access] *)
Definition post_grant_access (now later : Date) (sess : Session) (body : Body)
  : M Response :=
  guarded ["patient"] sess id (fun user =>
    tryCatch
      (let doctorEmail := prop body "doctorEmail" in
       found <- getUserByEmail doctorEmail ;;
       match found with
       | None => ret (reply 400 "Doctor not found or not verified")
       | Some doc =>
           if negb (Role_eqb (User.role doc) doctor)
              || negb (User.verified doc)
           then ret (reply 400 "Doctor not found or not verified")
           else
             accessData <-
               liftResult
                 (insertAccessSchema
                    [("patientId", JStr (SessionUser._id user));
                     ("doctorId", JStr (User._id doc));
                     ("granted", JBool true)]) ;;
             acc <- grantAccess now later accessData ;;
             ret (mkResponse 200 (Some "Access granted successfully")
                    (AccessP acc))
       end)
      (fun error => ret (replyError 500 "Failed to grant access" error))).

(** [POST /api/revoke-access] *)
Definition post_revoke_access (sess : Session) (body : Body) : M Response :=
  guarded ["patient"] sess id (fun user =>
    tryCatch
      (let doctorId := prop body "doctorId" in
       _ <- revokeAccess (SessionUser._id user) doctorId ;;
       ret (mkResponse 200 (Some "Access revoked successfully") NoPayload))
      (fun error => ret (replyError 500 "Failed to revoke access" error))).

(** [GET /api/records/:patientId] *)
Definition get_records_patientId (sess : Session) (patientId : string)
  : M Response :=
  guarded ["doctor"] sess id (fun user =>
    tryCatch
      (hasAccess <- checkAccess patientId (SessionUser._id user) ;;
       if negb hasAccess
       then ret (reply 403 "Access denied to patient records")
       else
         recs <- getRecordsByPatient patientId ;;
         ret (mkResponse 200 None (RecordsP recs)))
      (fun error =>
         ret (replyError 500 "Failed to fetch patient records" error))).

(** [POST /api/notes] *)
Definition post_notes (now later : Date) (sess : Session) (body : Body)
  : M Response :=
  guarded ["doctor"] sess id (fun user =>
    tryCatch
      (noteData <-
         liftResult
           (insertNoteSchema
              (spread body "doctorId" (JStr (SessionUser._id user)))) ;;
       hasAccess <-
         checkAccess (InsertNote.patientId noteData) (SessionUser._id user) ;;
       if negb hasAccess
       then ret (reply 403 "Access denied to patient records")
       else
         note <- createNote now later noteData ;;
         ret (mkResponse 200 (Some "Note added successfully") (NoteP note)))
      (fun error => ret (replyError 500 "Failed to add note" error))).

(** ** The remaining storage methods and routes *)

Definition getAllUsers : M (list User.t) :=
  fun s => (s, Ok (findAll (fun _ => true) (users s))).

(** The filter [{ verified: false, role: { $in: ['doctor', 'patient'] } }] *)
Definition getPendingVerifications : M (list User.t) :=
  fun s =>
    (s,
     Ok (findAll (fun u => negb (User.verified u)
                           && existsb (Role_eqb (User.role u))
                                [doctor; patient])
           (users s))).

Definition getAllRecords : M (list MedRecord.t) :=
  fun s => (s, Ok (findAll (fun _ => true) (records s))).

Definition getPatientAccess (patientId : string) : M (list Access.t) :=
  fun s =>
    (s,
     Ok (findAll (fun a => String.eqb patientId (Access.patientId a)
                           && Access.granted a) (access s))).

Definition getDoctorAccess (doctorId : string) : M (list Access.t) :=
  fun s =>
    (s,
     Ok (findAll (fun a => String.eqb doctorId (Access.doctorId a)
                           && Access.granted a) (access s))).

Definition getNotesByPatient (patientId : string) : M (list Note.t) :=
  fun s =>
    (s, Ok (sortDesc Note.createdAt
              (findAll (fun n => String.eqb patientId (Note.patientId n))
                 (notes s)))).

Definition getNotesByDoctor (doctorId : string) : M (list Note.t) :=
  fun s =>
    (s, Ok (sortDesc Note.createdAt
              (findAll (fun n => String.eqb doctorId (Note.doctorId n))
                 (notes s)))).

(** [app.METHOD(path, requireAuth, handler)] *)
Definition authenticated {A : Type} (sess : Session)
  (answer : Response -> A) (handler : SessionUser.t -> M A) : M A :=
  match requireAuth sess with
  | inl r => ret (answer r)
  | inr u => handler u
  end.

(** [GET /api/me] *)
Definition get_me (sess : Session) : M Response :=
  authenticated sess id (fun user => ret (mkResponse 200 None (UserP user))).

(** [GET /api/records] *)
Definition get_records (sess : Session) : M Response :=
  authenticated sess id (fun user =>
    tryCatch
      (if String.eqb (SessionUser.role user) "patient" then
         recs <- getRecordsByPatient (SessionUser._id user) ;;
         ret (mkResponse 200 None (RecordsP recs))
       else if String.eqb (SessionUser.role user) "admin" then
         recs <- getAllRecords ;;
         ret (mkResponse 200 None (RecordsP recs))
       else ret (reply 403 "Access denied"))
      (fun error => ret (replyError 500 "Failed to fetch records" error))).

(** [GET /api/pending-verifications]; [inr users] is [res.json({ users })]. *)
Definition get_pending_verifications (sess : Session)
  : M (Response + list User.t) :=
  guarded ["admin"] sess inl (fun _ =>
    tryCatch
      (found <- getPendingVerifications ;; ret (inr found))
      (fun error =>
         ret (inl (replyError 500 "Failed to fetch pending verifications"
                     error)))).

(** [GET /api/users]; [inr users] is [res.json({ users })]. *)
Definition get_users (sess : Session) : M (Response + list User.t) :=
  guarded ["admin"] sess inl (fun _ =>
    tryCatch
      (found <- getAllUsers ;; ret (inr found))
      (fun error => ret (inl (replyError 500 "Failed to fetch users" error)))).

(** ** The schemas of the client forms *)

(** [loginSchema] of the sign-in form. *)
Definition loginSchema (o : Body) : Result LoginFormData.t :=
  let email := zEmail (prop o "email") in
  let password := zStringMin 6 (prop o "password") in
  let role := zRole (prop o "role") in
  match email, password, role with
  | Some e, Some p, Some r => Ok (LoginFormData.mk e p r)
  | _, _, _ =>
      Throw (ZodError (issue "email" email ++ issue "password" password
                       ++ issue "role" role))
  end.

(** [registerSchema] of the registration form. *)
Definition registerSchema (o : Body) : Result RegisterFormData.t :=
  let name := zStringMin 1 (prop o "name") in
  let email := zEmail (prop o "email") in
  let password := zStringMin 6 (prop o "password") in
  let role := zRole (prop o "role") in
  let specialty := zStringOptional (prop o "specialty") in
  match name, email, password, role, specialty with
  | Some n, Some e, Some p, Some r, Some sp =>
      Ok (RegisterFormData.mk n e p r sp)
  | _, _, _, _, _ =>
      Throw (ZodError (issue "name" name ++ issue "email" email
                       ++ issue "password" password ++ issue "role" role
                       ++ issue "specialty" specialty))
  end.

(** [noteSchema] of the doctor dashboard's note form. *)
Definition noteFormSchema (o : Body) : Result NoteFormData.t :=
  let patientId := zStringMin 1 (prop o "patientId") in
  let consultationType := zStringMin 1 (prop o "consultationType") in
  let content := zStringMin 10 (prop o "content") in
  let diagnosis := zStringOptional (prop o "diagnosis") in
  let nextAppointment := zStringOptional (prop o "nextAppointment") in
  match patientId, consultationType, content, diagnosis, nextAppointment with
  | Some p, Some ct, Some c, Some dg, Some na =>
      Ok (NoteFormData.mk p ct c dg na)
  | _, _, _, _, _ =>
      Throw (ZodError (issue "patientId" patientId
                       ++ issue "consultationType" consultationType
                       ++ issue "content" content
                       ++ issue "diagnosis" diagnosis
                       ++ issue "nextAppointment" nextAppointment))
  end.

(** The object [POST /api/login] stores in the session for a user. *)
Definition sessionUserOf (u : User.t) : SessionUser.t :=
  SessionUser.mk (User._id u) (User.email u) (roleName (User.role u))
    (User.name u) (User.verified u).

(** A session that passes [requireRole(roles)]. *)
Definition hasRole (roles : list string) (sess : Session) : bool :=
  match sess with
  | Some u => existsb (String.eqb (SessionUser.role u)) roles
  | None => false
  end.

(** The answer of the guards to a session they stop. *)
Definition refusal (sess : Session) : Response :=
  match sess with
  | None => reply 401 "Authentication required"
  | Some _ => reply 403 "Insufficient permissions"
  end.

(** Ids identify users. *)
Definition uniqueIds (s : Store) : Prop :=
  NoDup (map User._id (users s)).

(** Every user id was drawn from the counter. *)
Definition idsBelowCounter (s : Store) : Prop :=
  forall u, In u (users s) ->
            exists n, n < nextId s /\ User._id u = oidString n.

(** The filter of [getPendingVerifications]. *)
Definition isPending (u : User.t) : bool :=
  negb (User.verified u)
  && existsb (Role_eqb (User.role u)) [doctor; patient].

(** Newest first: no document is followed by one of a later date. *)
Definition newestFirst {D : Type} (key : D -> Date) (c : list D) : Prop :=
  StronglySorted (fun a b => (key b <= key a)%Z) c.

(** Everything of a user document but its [verified] flag. *)
Definition userIdentity (u : User.t) :=
  (User._id u, User.name u, User.email u, User.password u, User.role u,
   User.specialty u, User.createdAt u).

(** ** Invariants and reachable stores *)

(** The number of Access documents of a (patientId, doctorId) pair, and the
    number of those with [granted = true]. *)
Definition pairCount (p d : string) (c : list Access.t) : nat :=
  List.length (filter (pairFilter p (JStr d)) c).

Definition activeCount (p d : string) (c : list Access.t) : nat :=
  List.length
    (filter (fun a => pairFilter p (JStr d) a && Access.granted a) c).

Definition atMostOnePerPair (c : list Access.t) : Prop :=
  forall p d, pairCount p d c <= 1.

(** Emails identify users. *)
Definition uniqueEmails (s : Store) : Prop :=
  NoDup (map User.email (users s)).

(** The calls of [IStorage] that write. *)
Inductive StorageCall : Type :=
| CreateUser (now later : Date) (user : InsertUser.t)
| UpdateUserVerification (id : string) (verified : bool)
| CreateRecord (now later : Date) (record : InsertRecord.t)
| GrantAccess (now later : Date) (access0 : InsertAccess.t)
| RevokeAccess (patientId : string) (doctorId : JSON)
| CreateNote (now later : Date) (note : InsertNote.t).

Definition perform (c : StorageCall) (s : Store) : Store :=
  match c with
  | CreateUser now later u => fst (createUser now later u s)
  | UpdateUserVerification i v => fst (updateUserVerification i v s)
  | CreateRecord now later r => fst (createRecord now later r s)
  | GrantAccess now later a => fst (grantAccess now later a s)
  | RevokeAccess p d => fst (revokeAccess p d s)
  | CreateNote now later n => fst (createNote now later n s)
  end.

(** Stores that sequential storage calls build from the empty database. *)
Inductive reachable : Store -> Prop :=
| reachable_empty : reachable emptyStore
| reachable_step s c : reachable s -> reachable (perform c s).

(** A sequence of storage calls, run one after another. *)
Definition performAll (cs : list StorageCall) (s : Store) : Store :=
  fold_left (fun t c => perform c t) cs s.


(** * Properties *)

#[local] Set Default Proof Using "Type".

(** ** Collections *)

Lemma deleteOne_filter_le {D : Type} (f g : D -> bool) (c : list D) :
  List.length (filter g (deleteOne f c)) <= List.length (filter g c).
Proof.
  induction c as [|x c IH]; simpl; [lia|].
  destruct (f x); simpl; destruct (g x); simpl; lia.
Qed.

Lemma deleteOne_filter_self {D : Type} (f : D -> bool) (c : list D) :
  List.length (filter f (deleteOne f c)) = pred (List.length (filter f c)).
Proof.
  induction c as [|x c IH]; simpl; [reflexivity|].
  destruct (f x) eqn:E; simpl; [reflexivity|].
  rewrite E. exact IH.
Qed.

Lemma deleteOne_no_match {D : Type} (f : D -> bool) (c : list D) :
  List.length (filter f c) = 0 -> deleteOne f c = c.
Proof.
  induction c as [|x c IH]; simpl; [reflexivity|].
  destruct (f x); simpl; [discriminate|].
  intros H. now rewrite IH.
Qed.

Lemma findOne_no_match {D : Type} (f : D -> bool) (c : list D) :
  List.length (filter f c) = 0 -> findOne f c = None.
Proof.
  unfold findOne.
  induction c as [|x c IH]; simpl; [reflexivity|].
  destruct (f x); simpl; [discriminate | exact IH].
Qed.

Lemma findOne_absent {D : Type} (f : D -> bool) (c : list D) :
  (forall x, In x c -> f x = false) -> findOne f c = None.
Proof.
  unfold findOne.
  induction c as [|x c IH]; simpl; intros H; [reflexivity|].
  rewrite (H x (or_introl eq_refl)). apply IH. intros y Hy. apply H. now right.
Qed.

Lemma filter_length_insertOne {D : Type} (f : D -> bool) (d : D) (c : list D) :
  List.length (filter f (insertOne d c))
  = List.length (filter f c) + (if f d then 1 else 0).
Proof.
  unfold insertOne. rewrite filter_app, length_app. simpl.
  now destruct (f d).
Qed.

Lemma filter_length_weaken {D : Type} (f g : D -> bool) (c : list D) :
  List.length (filter (fun x => f x && g x) c) <= List.length (filter f c).
Proof.
  induction c as [|x c IH]; simpl; [lia|].
  destruct (f x), (g x); simpl; lia.
Qed.

(** ** The pair filter *)

Lemma pairFilter_str (p d : string) (a : Access.t) :
  pairFilter p (JStr d) a = true
  <-> Access.patientId a = p /\ Access.doctorId a = d.
Proof.
  unfold pairFilter, bsonMatch.
  rewrite andb_true_iff, !String.eqb_eq.
  split; intros [H1 H2]; split; now symmetry.
Qed.

Lemma pairFilter_other_pair (p d p0 d0 : string) (a : Access.t) :
  Access.patientId a = p0 -> Access.doctorId a = d0 ->
  ~ (p = p0 /\ d = d0) ->
  pairFilter p (JStr d) a = false.
Proof.
  intros Hp Hd Hne.
  destruct (pairFilter p (JStr d) a) eqn:E; [|reflexivity].
  apply pairFilter_str in E. destruct E as [E1 E2].
  exfalso. apply Hne. split; congruence.
Qed.

Lemma pairFilter_same_pair (p d : string) (a : Access.t) :
  Access.patientId a = p -> Access.doctorId a = d ->
  pairFilter p (JStr d) a = true.
Proof. intros. now apply pairFilter_str. Qed.

(** ** Granting keeps one document per pair *)

Lemma grantAccess_pairCount_same (now later : Date) (a : InsertAccess.t) (s : Store) :
  pairCount (InsertAccess.patientId a) (InsertAccess.doctorId a)
    (access (fst (grantAccess now later a s)))
  = S (pred (pairCount (InsertAccess.patientId a) (InsertAccess.doctorId a)
               (access s))).
Proof.
  unfold pairCount, grantAccess. simpl.
  rewrite filter_length_insertOne, deleteOne_filter_self.
  rewrite pairFilter_same_pair by reflexivity. lia.
Qed.

Lemma grantAccess_pairCount_le (now later : Date) (a : InsertAccess.t) (s : Store)
  (p d : string) :
  ~ (p = InsertAccess.patientId a /\ d = InsertAccess.doctorId a) ->
  pairCount p d (access (fst (grantAccess now later a s)))
  <= pairCount p d (access s).
Proof.
  intros Hne. unfold pairCount, grantAccess. simpl.
  rewrite filter_length_insertOne.
  match goal with
  | |- context [pairFilter p (JStr d) ?x] =>
      rewrite (pairFilter_other_pair p d _ _ x eq_refl eq_refl Hne)
  end.
  rewrite Nat.add_0_r. apply deleteOne_filter_le.
Qed.

Lemma grantAccess_atMostOne (now later : Date) (a : InsertAccess.t) (s : Store) :
  atMostOnePerPair (access s) ->
  atMostOnePerPair (access (fst (grantAccess now later a s))).
Proof.
  intros H p d.
  destruct (String.eqb_spec p (InsertAccess.patientId a)) as [->|Hp].
  - destruct (String.eqb_spec d (InsertAccess.doctorId a)) as [->|Hd].
    + rewrite grantAccess_pairCount_same.
      specialize (H (InsertAccess.patientId a) (InsertAccess.doctorId a)). lia.
    + etransitivity; [apply grantAccess_pairCount_le|apply H].
      intros [_ E]. exact (Hd E).
  - etransitivity; [apply grantAccess_pairCount_le|apply H].
    intros [E _]. exact (Hp E).
Qed.

Lemma revokeAccess_atMostOne (p : string) (d : JSON) (s : Store) :
  atMostOnePerPair (access s) ->
  atMostOnePerPair (access (fst (revokeAccess p d s))).
Proof.
  intros H p' d'. unfold pairCount. simpl.
  etransitivity; [apply deleteOne_filter_le|apply H].
Qed.

Lemma perform_atMostOne (c : StorageCall) (s : Store) :
  atMostOnePerPair (access s) -> atMostOnePerPair (access (perform c s)).
Proof.
  destruct c as [n l u|i v|n l r|n l a|p d|n l x]; simpl;
    try (intros H; exact H).
  - apply (grantAccess_atMostOne n l).
  - apply revokeAccess_atMostOne.
Qed.

Lemma reachable_atMostOne (s : Store) :
  reachable s -> atMostOnePerPair (access s).
Proof.
  induction 1 as [|s c _ IH].
  - intros p d. unfold pairCount. simpl. lia.
  - now apply perform_atMostOne.
Qed.

Lemma grantAccess_activeCount_same (now later : Date) (a : InsertAccess.t)
  (s : Store) :
  InsertAccess.granted a = true ->
  pairCount (InsertAccess.patientId a) (InsertAccess.doctorId a) (access s)
  <= 1 ->
  activeCount (InsertAccess.patientId a) (InsertAccess.doctorId a)
    (access (fst (grantAccess now later a s))) = 1.
Proof.
  intros Hg Hc. unfold activeCount, grantAccess. simpl.
  rewrite filter_length_insertOne. simpl.
  rewrite pairFilter_same_pair by reflexivity. rewrite Hg. simpl.
  assert (Hz : List.length
                 (filter (fun x => pairFilter (InsertAccess.patientId a)
                                     (JStr (InsertAccess.doctorId a)) x
                                   && Access.granted x)
                    (deleteOne (pairFilter (InsertAccess.patientId a)
                                  (JStr (InsertAccess.doctorId a)))
                       (access s))) = 0).
  { pose proof (filter_length_weaken
                  (pairFilter (InsertAccess.patientId a)
                     (JStr (InsertAccess.doctorId a)))
                  Access.granted
                  (deleteOne (pairFilter (InsertAccess.patientId a)
                                (JStr (InsertAccess.doctorId a)))
                     (access s))) as Hw.
    rewrite deleteOne_filter_self in Hw. unfold pairCount in Hc. lia. }
  rewrite Hz. reflexivity.
Qed.

(** C1. In every store reachable by storage calls there is at most one Access
    document per (patientId, doctorId) pair; and granting access for the same
    pair twice in succession from such a store leaves exactly one document of
    the pair, which is active when the second grant is. *)
Theorem grant_keeps_one_access_per_pair (s : Store) :
  reachable s ->
  atMostOnePerPair (access s)
  /\ forall now1 later1 now2 later2 a1 a2,
       InsertAccess.patientId a2 = InsertAccess.patientId a1 ->
       InsertAccess.doctorId a2 = InsertAccess.doctorId a1 ->
       InsertAccess.granted a2 = true ->
       let s2 := fst (grantAccess now2 later2 a2 (fst (grantAccess now1 later1 a1 s))) in
       pairCount (InsertAccess.patientId a1) (InsertAccess.doctorId a1)
         (access s2) = 1
       /\ activeCount (InsertAccess.patientId a1) (InsertAccess.doctorId a1)
            (access s2) = 1.
Proof.
  intros Hr. pose proof (reachable_atMostOne s Hr) as Hinv.
  split; [exact Hinv|].
  intros now1 later1 now2 later2 a1 a2 Hp Hd Hg s2. subst s2.
  pose proof (grantAccess_atMostOne now1 later1 a1 s Hinv) as H1.
  rewrite <- Hp, <- Hd. split.
  - rewrite grantAccess_pairCount_same.
    specialize (H1 (InsertAccess.patientId a2) (InsertAccess.doctorId a2)).
    rewrite Hp, Hd in *. rewrite grantAccess_pairCount_same in *. lia.
  - apply grantAccess_activeCount_same; [exact Hg|apply H1].
Qed.

(** ** Revoking and checking access *)

Lemma store_eta (s : Store) :
  mkStore (users s) (records s) (access s) (notes s) (nextId s) = s.
Proof. now destruct s. Qed.

Lemma revokeAccess_pairCount_zero (p d : string) (s : Store) :
  pairCount p d (access s) <= 1 ->
  pairCount p d (access (fst (revokeAccess p (JStr d) s))) = 0.
Proof.
  unfold pairCount. simpl. rewrite deleteOne_filter_self. lia.
Qed.

Lemma revokeAccess_no_match (p d : string) (s : Store) :
  pairCount p d (access s) = 0 -> fst (revokeAccess p (JStr d) s) = s.
Proof.
  unfold pairCount. intros H. simpl.
  rewrite (deleteOne_no_match _ _ H). apply store_eta.
Qed.

Lemma revokeAccess_twice (p d : string) (s : Store) :
  pairCount p d (access s) <= 1 ->
  fst (revokeAccess p (JStr d) (fst (revokeAccess p (JStr d) s)))
  = fst (revokeAccess p (JStr d) s).
Proof.
  intros H. apply revokeAccess_no_match.
  now apply revokeAccess_pairCount_zero.
Qed.

Lemma checkAccess_no_grant (p d : string) (s : Store) :
  (forall a, In a (access s) ->
             Access.patientId a = p -> Access.doctorId a = d ->
             Access.granted a = false) ->
  checkAccess p d s = (s, Ok false).
Proof.
  intros H. unfold checkAccess. rewrite findOne_absent; [reflexivity|].
  intros a Ha. destruct (pairFilter p (JStr d) a) eqn:E; [|reflexivity].
  apply pairFilter_str in E. destruct E as [Ep Ed]. simpl.
  now apply H.
Qed.

Lemma pairCount_zero_no_doc (p d : string) (c : list Access.t) :
  pairCount p d c = 0 ->
  forall a, In a c -> ~ (Access.patientId a = p /\ Access.doctorId a = d).
Proof.
  unfold pairCount. intros H a Ha Hpd.
  apply pairFilter_str in Hpd.
  assert (Hin : In a (filter (pairFilter p (JStr d)) c))
    by (apply filter_In; now split).
  destruct (filter (pairFilter p (JStr d)) c); [inversion Hin|discriminate].
Qed.

Lemma checkAccess_pairCount_zero (p d : string) (s : Store) :
  pairCount p d (access s) = 0 -> checkAccess p d s = (s, Ok false).
Proof.
  intros H. apply checkAccess_no_grant. intros a Ha Hp Hd.
  exfalso. exact (pairCount_zero_no_doc p d _ H a Ha (conj Hp Hd)).
Qed.

Lemma insertNoteSchema_patientId (o : Body) (nd : InsertNote.t) :
  insertNoteSchema o = Ok nd ->
  prop o "patientId" = JStr (InsertNote.patientId nd).
Proof.
  unfold insertNoteSchema.
  destruct (zString (prop o "doctorId")); [|discriminate].
  destruct (prop o "patientId") eqn:Ep; simpl;
    try discriminate.
  destruct (zString (prop o "consultationType")); [|discriminate].
  destruct (zString (prop o "content")); [|discriminate].
  destruct (zStringOptional (prop o "diagnosis")); [|discriminate].
  destruct (zStringOptional (prop o "nextAppointment")); [|discriminate].
  intros H. inversion H. reflexivity.
Qed.

Lemma guarded_pass {A : Type} (r : string) (su : SessionUser.t)
  (answer : Response -> A) (handler : SessionUser.t -> M A) :
  SessionUser.role su = r ->
  guarded [r] (Some su) answer handler = handler su.
Proof.
  intros H. unfold guarded, requireAuth, requireRole. simpl.
  rewrite H, String.eqb_refl. reflexivity.
Qed.

Lemma get_records_denied (su : SessionUser.t) (p : string) (s : Store) :
  SessionUser.role su = "doctor" ->
  checkAccess p (SessionUser._id su) s = (s, Ok false) ->
  get_records_patientId (Some su) p s
  = (s, Ok (reply 403 "Access denied to patient records")).
Proof.
  intros Hr Hc. unfold get_records_patientId.
  rewrite (guarded_pass "doctor" su) by exact Hr.
  unfold tryCatch, bind. rewrite Hc. reflexivity.
Qed.

Lemma post_notes_denied (now later : Date) (su : SessionUser.t) (body : Body)
  (nd : InsertNote.t) (s : Store) :
  SessionUser.role su = "doctor" ->
  insertNoteSchema (spread body "doctorId" (JStr (SessionUser._id su)))
  = Ok nd ->
  checkAccess (InsertNote.patientId nd) (SessionUser._id su) s
  = (s, Ok false) ->
  post_notes now later (Some su) body s
  = (s, Ok (reply 403 "Access denied to patient records")).
Proof.
  intros Hr Hp Hc. unfold post_notes.
  rewrite (guarded_pass "doctor" su) by exact Hr.
  unfold tryCatch, bind, liftResult. rewrite Hp, Hc. reflexivity.
Qed.

(** C4. In a store with at most one Access document per pair, once
    [revokeAccess(patientId, doctorId)] has completed, [checkAccess] for that
    pair answers false, and the doctor's next [GET /api/records/:patientId]
    for that patient is answered 403. *)
Theorem revoke_then_check_denied (s : Store) (p d : string) :
  atMostOnePerPair (access s) ->
  let s' := fst (revokeAccess p (JStr d) s) in
  checkAccess p d s' = (s', Ok false)
  /\ forall su,
       SessionUser.role su = "doctor" -> SessionUser._id su = d ->
       get_records_patientId (Some su) p s'
       = (s', Ok (reply 403 "Access denied to patient records")).
Proof.
  intros H s'.
  assert (Hc : checkAccess p d s' = (s', Ok false)).
  { apply checkAccess_pairCount_zero.
    apply revokeAccess_pairCount_zero, H. }
  split; [exact Hc|].
  intros su Hr Hid. apply get_records_denied; [exact Hr|].
  now rewrite Hid.
Qed.

(** C10. For a pair with no matching Access document, [revokeAccess] leaves
    the store as it is, [POST /api/revoke-access] by that patient for that
    doctor still answers 200 with 'Access revoked successfully', and revoking
    twice equals revoking once.  The last equation also holds whenever the
    pair has at most one document, as in every reachable store. *)
Theorem revoke_idempotent (s : Store) (p d : string) :
  (pairCount p d (access s) = 0 ->
   fst (revokeAccess p (JStr d) s) = s
   /\ (forall su body,
         SessionUser.role su = "patient" -> SessionUser._id su = p ->
         prop body "doctorId" = JStr d ->
         post_revoke_access (Some su) body s
         = (s, Ok (mkResponse 200 (Some "Access revoked successfully")
                     NoPayload)))
   /\ fst (revokeAccess p (JStr d) (fst (revokeAccess p (JStr d) s)))
      = fst (revokeAccess p (JStr d) s))
  /\ (pairCount p d (access s) <= 1 ->
      fst (revokeAccess p (JStr d) (fst (revokeAccess p (JStr d) s)))
      = fst (revokeAccess p (JStr d) s)).
Proof.
  split.
  - intros H. pose proof (revokeAccess_no_match p d s H) as Hs.
    split; [exact Hs|]. split.
    + intros su body Hr Hid Hb. unfold post_revoke_access.
      rewrite (guarded_pass "patient" su) by exact Hr.
      unfold tryCatch, bind. rewrite Hb, Hid.
      destruct (revokeAccess p (JStr d) s) as [s1 r] eqn:E.
      simpl in Hs. subst s1.
      unfold revokeAccess in E. inversion E. reflexivity.
    + apply revokeAccess_twice. lia.
  - apply revokeAccess_twice.
Qed.

(** C3 (as the code has it). For an authenticated doctor and a patient for
    whom no Access document with [granted = true] links the two,
    [GET /api/records/:patientId] is answered 403 with no records and no
    write; a [POST /api/notes] that names that patient is answered 403 when
    its body passes the insert schema and 500 when it does not, validation
    coming before the grant check, and persists nothing in either case. *)
Theorem doctor_without_grant_denied (s : Store) (su : SessionUser.t)
  (p : string) :
  SessionUser.role su = "doctor" ->
  (forall a, In a (access s) ->
             Access.patientId a = p ->
             Access.doctorId a = SessionUser._id su ->
             Access.granted a = false) ->
  get_records_patientId (Some su) p s
  = (s, Ok (reply 403 "Access denied to patient records"))
  /\ forall now later body,
       prop body "patientId" = JStr p ->
       (forall nd,
          insertNoteSchema
            (spread body "doctorId" (JStr (SessionUser._id su))) = Ok nd ->
          post_notes now later (Some su) body s
          = (s, Ok (reply 403 "Access denied to patient records")))
       /\ (forall e,
            insertNoteSchema
              (spread body "doctorId" (JStr (SessionUser._id su))) = Throw e ->
            post_notes now later (Some su) body s
            = (s, Ok (replyError 500 "Failed to add note" e)))
       /\ fst (post_notes now later (Some su) body s) = s.
Proof.
  intros Hr Hno.
  pose proof (checkAccess_no_grant p (SessionUser._id su) s Hno) as Hc.
  split; [now apply get_records_denied|].
  intros now later body Hb.
  assert (H403 : forall nd,
             insertNoteSchema
               (spread body "doctorId" (JStr (SessionUser._id su))) = Ok nd ->
             post_notes now later (Some su) body s
             = (s, Ok (reply 403 "Access denied to patient records"))).
  { intros nd E.
    apply (post_notes_denied now later su body nd); [exact Hr|exact E|].
    apply insertNoteSchema_patientId in E. simpl in E.
    rewrite Hb in E. inversion E as [Ep]. rewrite <- Ep. exact Hc. }
  assert (H500 : forall e,
             insertNoteSchema
               (spread body "doctorId" (JStr (SessionUser._id su))) = Throw e ->
             post_notes now later (Some su) body s
             = (s, Ok (replyError 500 "Failed to add note" e))).
  { intros e E. unfold post_notes.
    rewrite (guarded_pass "doctor" su) by exact Hr.
    unfold tryCatch, bind, liftResult. rewrite E. reflexivity. }
  split; [exact H403|]. split; [exact H500|].
  destruct (insertNoteSchema
              (spread body "doctorId" (JStr (SessionUser._id su))))
    as [nd|e] eqn:E.
  - now rewrite (H403 nd).
  - now rewrite (H500 e).
Qed.

(** Whatever else the body holds, a note request that names a patient the
    doctor has no active grant for writes nothing. *)
Lemma post_notes_without_grant_no_write (now later : Date) (s : Store)
  (su : SessionUser.t) (body : Body) (p : string) :
  SessionUser.role su = "doctor" ->
  prop body "patientId" = JStr p ->
  (forall a, In a (access s) ->
             Access.patientId a = p ->
             Access.doctorId a = SessionUser._id su ->
             Access.granted a = false) ->
  fst (post_notes now later (Some su) body s) = s.
Proof.
  intros Hr Hb Hno.
  destruct (insertNoteSchema
              (spread body "doctorId" (JStr (SessionUser._id su))))
    as [nd|e] eqn:E.
  - assert (Hpid : InsertNote.patientId nd = p).
    { apply insertNoteSchema_patientId in E. simpl in E.
      rewrite Hb in E. congruence. }
    rewrite (post_notes_denied now later su body nd s Hr E); [reflexivity|].
    rewrite Hpid. now apply checkAccess_no_grant.
  - unfold post_notes. rewrite (guarded_pass "doctor" su) by exact Hr.
    unfold tryCatch, bind, liftResult. rewrite E. reflexivity.
Qed.

(** ** Looking users up by email *)

Lemma getUserByEmail_unique (s : Store) (u : User.t) :
  uniqueEmails s -> In u (users s) ->
  getUserByEmail (JStr (User.email u)) s = (s, Ok (Some u)).
Proof.
  unfold uniqueEmails, getUserByEmail, findOne. intros Hnd Hin.
  do 2 f_equal.
  induction (users s) as [|x l IH]; [inversion Hin|].
  simpl in *. inversion Hnd as [|? ? Hx Hl]; subst.
  destruct (String.eqb_spec (User.email u) (User.email x)) as [E|E].
  - destruct Hin as [->|Hin]; [reflexivity|].
    exfalso. apply Hx. rewrite <- E. now apply in_map.
  - destruct Hin as [->|Hin]; [congruence|]. now apply IH.
Qed.

Lemma getUserByEmail_absent (s : Store) (e : string) :
  (forall u, In u (users s) -> User.email u <> e) ->
  getUserByEmail (JStr e) s = (s, Ok None).
Proof.
  intros H. unfold getUserByEmail. rewrite findOne_absent; [reflexivity|].
  intros u Hu. simpl. apply String.eqb_neq. intros E. now apply (H u Hu).
Qed.

Lemma Role_eqb_eq (a b : Role) : Role_eqb a b = true <-> a = b.
Proof. destruct a, b; simpl; split; congruence. Qed.




(** ** Registration *)

(** C6. After a successful [POST /api/register] the user just created has
    [verified] equal to [role == 'admin'], whatever [verified] the payload
    carried: its other properties are those of the validated payload. *)
Theorem register_verified_iff_admin (now later : Date) (body : Body) (s s' : Store)
  (r : Response) :
  post_register now later body s = (s', Ok r) ->
  status r = 201 ->
  exists ud u,
    insertUserSchema body = Ok ud
    /\ users s' = (users s ++ [u])%list
    /\ User.name u = InsertUser.name ud
    /\ User.email u = InsertUser.email ud
    /\ User.password u = InsertUser.password ud
    /\ User.role u = InsertUser.role ud
    /\ User.verified u = Role_eqb (User.role u) admin.
Proof.
  unfold post_register, tryCatch, bind, liftResult.
  destruct (insertUserSchema body) as [ud|e] eqn:E.
  - unfold getUserByEmail.
    destruct (findOne _ (users s)) as [x|].
    + intros H Hs. inversion H; subst. discriminate.
    + simpl. intros H Hs. inversion H; subst.
      eexists. eexists. split; [reflexivity|].
      simpl. unfold insertOne. repeat split; reflexivity.
  - simpl. intros H Hs. inversion H; subst. discriminate.
Qed.

Lemma post_register_uniqueEmails (now later : Date) (body : Body) (s : Store) :
  uniqueEmails s -> uniqueEmails (fst (post_register now later body s)).
Proof.
  intros Hnd. unfold post_register, tryCatch, bind, liftResult.
  destruct (insertUserSchema body) as [ud|e]; [|exact Hnd].
  unfold getUserByEmail, findOne.
  destruct (find _ (users s)) as [x|] eqn:F; [exact Hnd|].
  simpl. unfold uniqueEmails, insertOne in *. simpl.
  rewrite map_app. simpl.
  apply NoDup_rev in Hnd. rewrite <- rev_involutive. apply NoDup_rev.
  rewrite rev_app_distr. simpl. constructor; [|exact Hnd].
  rewrite <- in_rev. intros Hin. apply in_map_iff in Hin.
  destruct Hin as [u [He Hu]].
  pose proof (find_none _ _ F u Hu) as Hf. simpl in Hf.
  apply String.eqb_neq in Hf. congruence.
Qed.

Lemma updateUserVerification_uniqueEmails (id : string) (v : bool)
  (s : Store) :
  uniqueEmails s -> uniqueEmails (fst (updateUserVerification id v s)).
Proof.
  unfold uniqueEmails. simpl.
  assert (E : map User.email
                (updateOne (fun u => String.eqb id (User._id u))
                   (User.set_verified v) (users s))
              = map User.email (users s)).
  { induction (users s) as [|x l IH]; simpl; [reflexivity|].
    destruct (String.eqb id (User._id x)); simpl; [reflexivity|].
    now rewrite IH. }
  now rewrite E.
Qed.

(** ** Records *)

Lemma insertRecordSchema_patientId (o : Body) (rd : InsertRecord.t) :
  insertRecordSchema o = Ok rd ->
  prop o "patientId" = JStr (InsertRecord.patientId rd).
Proof.
  unfold insertRecordSchema.
  destruct (prop o "patientId") eqn:Ep; simpl; try discriminate.
  destruct (zString (prop o "filename")); [|discriminate].
  destruct (zString (prop o "filePath")); [|discriminate].
  destruct (zString (prop o "description")); [|discriminate].
  destruct (zString (prop o "fileType")); [|discriminate].
  destruct (zNumber (prop o "fileSize")); [|discriminate].
  intros H. inversion H. reflexivity.
Qed.

Lemma guarded_inv {A : Type} (roles : list string) (sess : Session)
  (answer : Response -> A) (handler : SessionUser.t -> M A) :
  (exists su, sess = Some su
              /\ existsb (String.eqb (SessionUser.role su)) roles = true
              /\ guarded roles sess answer handler = handler su)
  \/ (exists c m, (c = 401 \/ c = 403)
                  /\ guarded roles sess answer handler
                     = ret (answer (reply c m))).
Proof.
  unfold guarded, requireAuth, requireRole.
  destruct sess as [su|].
  - destruct (existsb _ roles) eqn:E.
    + left. exists su. auto.
    + right. exists 403, "Insufficient permissions". auto.
  - right. exists 401, "Authentication required". auto.
Qed.

(** Case analysis on the guards in front of a handler. *)
Ltac open_guard su Hrole c m Hc :=
  match goal with
  | |- context [guarded ?roles ?sess ?answer ?handler] =>
      destruct (guarded_inv roles sess answer handler)
        as [[su [? [Hrole ->]]] | [c [m [Hc ->]]]]; [subst sess|]
  end.

Lemma only_role (r x : string) :
  existsb (String.eqb x) [r] = true -> x = r.
Proof.
  simpl. rewrite orb_false_r. apply String.eqb_eq.
Qed.

(** C8. After a successful [POST /api/records] or [POST /api/upload] the
    Record just persisted has the session user's id as [patientId], whatever
    the body supplied, and that user is an authenticated patient. *)
Theorem record_owner_is_session_user (now later : Date) (sess : Session)
  (s s' : Store) (r : Response) :
  status r = 200 ->
  (forall body,
     post_records now later sess body s = (s', Ok r) ->
     exists su rec,
       sess = Some su /\ SessionUser.role su = "patient"
       /\ records s' = (records s ++ [rec])%list
       /\ MedRecord.patientId rec = SessionUser._id su)
  /\ (forall part fields,
        post_upload now later sess part fields s = (s', Ok (Responded r)) ->
        exists su rec,
          sess = Some su /\ SessionUser.role su = "patient"
          /\ records s' = (records s ++ [rec])%list
          /\ MedRecord.patientId rec = SessionUser._id su).
Proof.
  intros Hs. split.
  - intros body. unfold post_records. open_guard su Hrole c m Hc.
    + unfold tryCatch, bind, liftResult.
      destruct (insertRecordSchema _) as [rd|e] eqn:E.
      * simpl. intros H. inversion H; subst.
        apply insertRecordSchema_patientId in E. simpl in E.
        inversion E as [Eid].
        eexists. eexists. split; [reflexivity|].
        split; [now apply only_role|].
        simpl. unfold insertOne. split; reflexivity.
      * simpl. intros H. inversion H; subst. discriminate.
    + unfold ret. intros H. inversion H; subst. simpl in Hs.
      destruct Hc; subst; discriminate.
  - intros part fields. unfold post_upload. open_guard su Hrole c m Hc.
    + destruct (upload_single "file" part) as [err|[f|]].
      * unfold ret. intros H. inversion H.
      * unfold tryCatch, bind, liftResult.
        destruct (insertRecordSchema _) as [rd|e] eqn:E.
        -- simpl. intros H. inversion H; subst.
           apply insertRecordSchema_patientId in E. simpl in E.
           inversion E as [Eid].
           eexists. eexists. split; [reflexivity|].
           split; [now apply only_role|].
           simpl. unfold insertOne. split; reflexivity.
        -- simpl. intros H. inversion H; subst. discriminate.
      * unfold tryCatch, ret. intros H. inversion H; subst. discriminate.
    + unfold ret. intros H. inversion H; subst. simpl in Hs.
      destruct Hc; subst; discriminate.
Qed.

(** ** Uploads *)

Lemma fileFilter_rejects (f : File.t) :
  ~ In (File.mimetype f) allowedTypes -> exists e, fileFilter f = Some e.
Proof.
  intros H. unfold fileFilter.
  destruct (existsb _ allowedTypes) eqn:E; [|eauto].
  exfalso. apply H. apply existsb_exists in E.
  destruct E as [x [Hx Hm]]. apply String.eqb_eq in Hm. now subst.
Qed.

Lemma upload_single_rejects (f : File.t) :
  ~ In (File.mimetype f) allowedTypes \/ (fileSizeLimit < File.size f)%Z ->
  exists err, upload_single "file" (Some f) = inl err.
Proof.
  intros H. unfold upload_single.
  destruct (negb _); [eauto|].
  destruct (fileFilter f) as [e|] eqn:F; [eauto|].
  destruct H as [H|H].
  - destruct (fileFilter_rejects f H) as [e He]. congruence.
  - apply Z.ltb_lt in H. rewrite H. eauto.
Qed.

(** C7. An upload whose file has a MIME type outside the allow-list, or more
    than [10 * 1024 * 1024] bytes, is refused by the upload middleware: for an
    authenticated patient the request ends with that refusal handed to
    Express, the handler never having been called, and for every session the
    store is left as it was, so no Record is persisted. *)
Theorem upload_rejected_before_handler (now later : Date) (sess : Session)
  (f : File.t) (fields : Body) (s : Store) :
  ~ In (File.mimetype f) allowedTypes
  \/ (10 * 1024 * 1024 < File.size f)%Z ->
  exists err,
    upload_single "file" (Some f) = inl err
    /\ fst (post_upload now later sess (Some f) fields s) = s
    /\ (forall su,
          sess = Some su -> SessionUser.role su = "patient" ->
          post_upload now later sess (Some f) fields s = (s, Ok (Forwarded err))).
Proof.
  intros H. destruct (upload_single_rejects f H) as [err He].
  exists err. split; [exact He|]. split.
  - unfold post_upload. open_guard su Hrole c m Hc.
    + rewrite He. reflexivity.
    + reflexivity.
  - intros su -> Hr. unfold post_upload.
    rewrite (guarded_pass "patient" su) by exact Hr.
    rewrite He. reflexivity.
Qed.

(** ** Bodies that fail validation *)

(** C2 (as the code has it). A body that violates the insert schema is
    answered 400 by [POST /api/register] and 500 by [POST /api/records] and
    [POST /api/notes], in each case with the validation error and without any
    store write; [POST /api/grant-access] validates an object it builds
    itself, which always passes. *)
Theorem schema_violation_answers (now later : Date) (body : Body) (s : Store) :
  (forall e,
     insertUserSchema body = Throw e ->
     post_register now later body s
     = (s, Ok (replyError 400 "Registration failed" e)))
  /\ (forall su e,
        SessionUser.role su = "patient" ->
        insertRecordSchema
          (spread body "patientId" (JStr (SessionUser._id su))) = Throw e ->
        post_records now later (Some su) body s
        = (s, Ok (replyError 500 "Failed to create record" e)))
  /\ (forall su e,
        SessionUser.role su = "doctor" ->
        insertNoteSchema
          (spread body "doctorId" (JStr (SessionUser._id su))) = Throw e ->
        post_notes now later (Some su) body s
        = (s, Ok (replyError 500 "Failed to add note" e)))
  /\ (forall p d,
        insertAccessSchema
          [("patientId", JStr p); ("doctorId", JStr d);
           ("granted", JBool true)]
        = Ok (InsertAccess.mk p d true)).
Proof.
  repeat split.
  - intros e E. unfold post_register, tryCatch, bind, liftResult.
    rewrite E. reflexivity.
  - intros su e Hr E. unfold post_records.
    rewrite (guarded_pass "patient" su) by exact Hr.
    unfold tryCatch, bind, liftResult. rewrite E. reflexivity.
  - intros su e Hr E. unfold post_notes.
    rewrite (guarded_pass "doctor" su) by exact Hr.
    unfold tryCatch, bind, liftResult. rewrite E. reflexivity.
Qed.

(** ** Routes only write through the storage calls *)

Lemma post_register_reachable (now later : Date) (body : Body) (s : Store) :
  reachable s -> reachable (fst (post_register now later body s)).
Proof.
  intros H. unfold post_register, tryCatch, bind, liftResult.
  destruct (insertUserSchema body) as [ud|e]; [|exact H].
  unfold getUserByEmail. destruct (findOne _ (users s)); [exact H|].
  apply (reachable_step s (CreateUser now later _) H).
Qed.

Lemma post_login_reachable (sess : Session) (body : Body) (s : Store) :
  reachable s -> reachable (fst (post_login sess body s)).
Proof.
  intros H. unfold post_login, tryCatch, bind, getUserByEmail.
  destruct (findOne _ (users s)) as [u|]; [|exact H].
  destruct (_ || _); [exact H|].
  destruct (negb _); exact H.
Qed.

Lemma post_records_reachable (now later : Date) (sess : Session) (body : Body)
  (s : Store) :
  reachable s -> reachable (fst (post_records now later sess body s)).
Proof.
  intros H. unfold post_records. open_guard su Hrole c m Hc; [|exact H].
  unfold tryCatch, bind, liftResult.
  destruct (insertRecordSchema _) as [rd|e]; [|exact H].
  apply (reachable_step s (CreateRecord now later rd) H).
Qed.

Lemma post_upload_reachable (now later : Date) (sess : Session)
  (part : option File.t) (fields : Body) (s : Store) :
  reachable s -> reachable (fst (post_upload now later sess part fields s)).
Proof.
  intros H. unfold post_upload. open_guard su Hrole c m Hc; [|exact H].
  destruct (upload_single "file" part) as [err|[f|]]; try exact H.
  unfold tryCatch, bind, liftResult.
  destruct (insertRecordSchema _) as [rd|e]; [|exact H].
  apply (reachable_step s (CreateRecord now later rd) H).
Qed.

Lemma post_grant_access_reachable (now later : Date) (sess : Session) (body : Body)
  (s : Store) :
  reachable s -> reachable (fst (post_grant_access now later sess body s)).
Proof.
  intros H. unfold post_grant_access. open_guard su Hrole c m Hc; [|exact H].
  unfold tryCatch, bind, liftResult, getUserByEmail.
  destruct (findOne _ (users s)) as [u|]; [|exact H].
  destruct (_ || _); [exact H|].
  apply (reachable_step s (GrantAccess now later _) H).
Qed.

Lemma post_revoke_access_reachable (sess : Session) (body : Body)
  (s : Store) :
  reachable s -> reachable (fst (post_revoke_access sess body s)).
Proof.
  intros H. unfold post_revoke_access. open_guard su Hrole c m Hc; [|exact H].
  apply (reachable_step s (RevokeAccess _ _) H).
Qed.

Lemma get_records_patientId_reachable (sess : Session) (p : string)
  (s : Store) :
  reachable s -> reachable (fst (get_records_patientId sess p s)).
Proof.
  intros H. unfold get_records_patientId.
  open_guard su Hrole c m Hc; [|exact H].
  unfold tryCatch, bind, checkAccess.
  destruct (findOne _ (access s)); exact H.
Qed.

Lemma post_notes_reachable (now later : Date) (sess : Session) (body : Body)
  (s : Store) :
  reachable s -> reachable (fst (post_notes now later sess body s)).
Proof.
  intros H. unfold post_notes. open_guard su Hrole c m Hc; [|exact H].
  unfold tryCatch, bind, liftResult.
  destruct (insertNoteSchema _) as [nd|e]; [|exact H].
  unfold checkAccess. destruct (findOne _ (access s)); [|exact H].
  apply (reachable_step s (CreateNote now later nd) H).
Qed.

(** * Further properties *)

(** ** Guards *)

Lemma guarded_refuses {A : Type} (roles : list string) (sess : Session)
  (answer : Response -> A) (handler : SessionUser.t -> M A) :
  hasRole roles sess = false ->
  guarded roles sess answer handler = ret (answer (refusal sess)).
Proof.
  unfold guarded, requireAuth, requireRole, hasRole, refusal.
  destruct sess as [u|]; [|reflexivity].
  intros H. rewrite H. reflexivity.
Qed.

(** X1. A request whose session is missing or has a role outside the list of
    the route's [requireRole] is answered 401 (no session) or 403 (wrong
    role) by every guarded route, and the store is left as it was. *)
Theorem guards_refuse_without_role (now later : Date) (sess : Session) (s : Store) :
  (hasRole ["patient"] sess = false ->
   (forall body,
      post_records now later sess body s = (s, Ok (refusal sess)))
   /\ (forall part fields,
         post_upload now later sess part fields s
         = (s, Ok (Responded (refusal sess))))
   /\ (forall body,
         post_grant_access now later sess body s = (s, Ok (refusal sess)))
   /\ (forall body,
         post_revoke_access sess body s = (s, Ok (refusal sess))))
  /\ (hasRole ["doctor"] sess = false ->
      (forall p, get_records_patientId sess p s = (s, Ok (refusal sess)))
      /\ (forall body, post_notes now later sess body s = (s, Ok (refusal sess))))
  /\ (hasRole ["admin"] sess = false ->
      get_pending_verifications sess s = (s, Ok (inl (refusal sess)))
      /\ get_users sess s = (s, Ok (inl (refusal sess))))
  /\ (hasRole ["patient"; "admin"] sess = false ->
      exists r, get_records sess s = (s, Ok r)
                /\ (status r = 401 \/ status r = 403)).
Proof.
  split; [|split; [|split]].
  - intros H. repeat split; intros;
      [unfold post_records | unfold post_upload | unfold post_grant_access
       | unfold post_revoke_access];
      now rewrite guarded_refuses.
  - intros H. split; intros;
      [unfold get_records_patientId | unfold post_notes];
      now rewrite guarded_refuses.
  - intros H. split;
      [unfold get_pending_verifications | unfold get_users];
      now rewrite guarded_refuses.
  - intros H. unfold get_records, authenticated, requireAuth.
    destruct sess as [u|].
    + simpl in H. rewrite orb_false_r in H.
      apply orb_false_iff in H. destruct H as [Hp Ha].
      unfold tryCatch. rewrite Hp, Ha.
      eexists. split; [reflexivity|]. right. reflexivity.
    + eexists. split; [reflexivity|]. left. reflexivity.
Qed.

(** ** Login *)




Lemma zRole_roleName (v : JSON) (r : Role) :
  zRole v = Some r <-> v = JStr (roleName r).
Proof.
  split.
  - unfold zRole. destruct v; try discriminate.
    destruct (String.eqb_spec s "patient") as [->|_];
      [intros H; inversion H; reflexivity|].
    destruct (String.eqb_spec s "doctor") as [->|_];
      [intros H; inversion H; reflexivity|].
    destruct (String.eqb_spec s "admin") as [->|_];
      [intros H; inversion H; reflexivity|discriminate].
  - intros ->. now destruct r.
Qed.

Lemma zStringMin_str (n : nat) (v : JSON) (x : string) :
  zStringMin n v = Some x -> v = JStr x /\ n <= String.length x.
Proof.
  unfold zStringMin. destruct v; try discriminate.
  destruct (Nat.leb n (String.length s)) eqn:E; [|discriminate].
  intros H. inversion H; subst. split; [reflexivity|].
  now apply Nat.leb_le.
Qed.

Lemma zEmail_str (v : JSON) (x : string) :
  zEmail v = Some x -> v = JStr x /\ isEmail x = true.
Proof.
  unfold zEmail. destruct v; try discriminate.
  destruct (isEmail s) eqn:E; [|discriminate].
  intros H. inversion H; subst. now split.
Qed.

Lemma insertUserSchema_fields (o : Body) (ud : InsertUser.t) :
  insertUserSchema o = Ok ud ->
  prop o "email" = JStr (InsertUser.email ud)
  /\ prop o "password" = JStr (InsertUser.password ud)
  /\ prop o "role" = JStr (roleName (InsertUser.role ud))
  /\ 6 <= String.length (InsertUser.password ud)
  /\ isEmail (InsertUser.email ud) = true.
Proof.
  unfold insertUserSchema.
  destruct (zStringMin 1 (prop o "name")); [|discriminate].
  destruct (zEmail (prop o "email")) as [e|] eqn:Ee; [|discriminate].
  destruct (zStringMin 6 (prop o "password")) as [pw|] eqn:Ep;
    [|discriminate].
  destruct (zRole (prop o "role")) as [r|] eqn:Er; [|discriminate].
  destruct (zBooleanDefault false (prop o "verified")); [|discriminate].
  destruct (zStringOptional (prop o "specialty")); [|discriminate].
  intros H. inversion H; subst. simpl.
  apply zEmail_str in Ee. apply zStringMin_str in Ep.
  apply zRole_roleName in Er.
  destruct Ee as [Ee1 Ee2]. destruct Ep as [Ep1 Ep2].
  repeat split; assumption.
Qed.

Lemma post_login_found (sess : Session) (lb : Body) (s : Store) (u : User.t) :
  getUserByEmail (prop lb "email") s = (s, Ok (Some u)) ->
  prop lb "password" = JStr (User.password u) ->
  prop lb "role" = JStr (roleName (User.role u)) ->
  post_login sess lb s
  = (s, Ok (if User.verified u
            then (mkResponse 200 (Some "Login successful")
                    (UserP (sessionUserOf u)),
                  Some (sessionUserOf u))
            else (reply 401 "Account pending verification", sess))).
Proof.
  intros Hf Hp Hr. unfold post_login, tryCatch, bind.
  rewrite Hf, Hp, Hr. unfold strictEq. rewrite !String.eqb_refl.
  destruct (User.verified u) eqn:Ev; simpl; [|reflexivity].
  unfold sessionUserOf. rewrite Ev. reflexivity.
Qed.


(** ** Verification *)

Lemma oidString_inj (n m : nat) : oidString n = oidString m -> n = m.
Proof.
  unfold oidString. intros H.
  apply DecimalNat.Unsigned.to_uint_inj.
  assert (E : Some (Nat.to_uint n) = Some (Nat.to_uint m)).
  { rewrite <- !NilEmpty.usu. now rewrite H. }
  now inversion E.
Qed.

Lemma updateOne_keeps {D K : Type} (key : D -> K) (f : D -> bool)
  (g : D -> D) (c : list D) :
  (forall x, key (g x) = key x) ->
  map key (updateOne f g c) = map key c.
Proof.
  intros Hk. induction c as [|x c IH]; simpl; [reflexivity|].
  destruct (f x); simpl; [now rewrite Hk | now rewrite IH].
Qed.

Lemma perform_ids (c : StorageCall) (s : Store) :
  idsBelowCounter s /\ uniqueIds s ->
  idsBelowCounter (perform c s) /\ uniqueIds (perform c s).
Proof.
  intros [Hb Hu]. unfold idsBelowCounter, uniqueIds in *.
  destruct c; simpl.
  - split.
    + intros u Hin. unfold insertOne in Hin. apply in_app_or in Hin.
      destruct Hin as [Hin|[<-|[]]].
      * destruct (Hb u Hin) as [n [Hn He]]. exists n. split; [lia|exact He].
      * exists (nextId s). split; [lia|reflexivity].
    + unfold insertOne. rewrite map_app. simpl.
      apply NoDup_rev in Hu. rewrite <- rev_involutive. apply NoDup_rev.
      rewrite rev_app_distr. simpl. constructor; [|exact Hu].
      rewrite <- in_rev. intros Hin. apply in_map_iff in Hin.
      destruct Hin as [u [He Hin]]. destruct (Hb u Hin) as [n [Hn Hn']].
      rewrite Hn' in He. apply oidString_inj in He. lia.
  - assert (E : map User._id
                  (updateOne (fun u => String.eqb id (User._id u))
                     (User.set_verified verified) (users s))
                = map User._id (users s))
      by (apply updateOne_keeps; reflexivity).
    split; [|now rewrite E].
    intros u Hin.
    assert (Hid : In (User._id u) (map User._id (users s)))
      by (rewrite <- E; now apply in_map).
    apply in_map_iff in Hid. destruct Hid as [x [Hx Hin']].
    destruct (Hb x Hin') as [n [Hn He]]. exists n. split; [exact Hn|].
    now rewrite <- Hx.
  - split; [|exact Hu]. intros u Hin. destruct (Hb u Hin) as [n [Hn He]].
    exists n. split; [lia|exact He].
  - split; [|exact Hu]. intros u Hin. destruct (Hb u Hin) as [n [Hn He]].
    exists n. split; [lia|exact He].
  - split; [exact Hb|exact Hu].
  - split; [|exact Hu]. intros u Hin. destruct (Hb u Hin) as [n [Hn He]].
    exists n. split; [lia|exact He].
Qed.

Lemma reachable_uniqueIds (s : Store) : reachable s -> uniqueIds s.
Proof.
  intros H.
  assert (Hb : idsBelowCounter s /\ uniqueIds s).
  { induction H as [|s c _ IH].
    - split; [intros u []|constructor].
    - now apply perform_ids. }
  apply Hb.
Qed.

Lemma users_after_verification (id : string) (v : bool) (l : list User.t)
  (u : User.t) :
  NoDup (map User._id l) -> In u l -> User._id u = id ->
  let l' := updateOne (fun x => String.eqb id (User._id x))
              (User.set_verified v) l in
  In (User.set_verified v u) l'
  /\ forall x, In x l' ->
               x = User.set_verified v u
               \/ (In x l /\ User._id x <> id).
Proof.
  intros Hnd Hin Hid. induction l as [|y l IH]; [inversion Hin|].
  simpl in *. inversion Hnd as [|? ? Hy Hl]; subst.
  destruct (String.eqb_spec (User._id u) (User._id y)) as [E|E].
  - assert (y = u).
    { destruct Hin as [->|Hin]; [reflexivity|].
      exfalso. apply Hy. rewrite <- E. now apply in_map. }
    subst y. split; [now left|].
    intros x [<-|Hx]; [now left|]. right. split; [now right|].
    intros Ex. apply Hy. rewrite <- Ex. now apply in_map.
  - destruct Hin as [->|Hin]; [congruence|].
    destruct (IH Hl Hin) as [H1 H2]. split; [now right|].
    intros x [<-|Hx].
    + right. split; [now left|congruence].
    + destruct (H2 x Hx) as [->|[Hx1 Hx2]]; [now left|].
      right. split; [now right|exact Hx2].
Qed.

(** X4. In a store where emails and ids identify users, once
    [updateUserVerification] has set the flag of a stored user, a login with
    that user's credentials succeeds if the flag was set to true and is
    answered 401 'Account pending verification' if it was set to false. *)
Theorem verification_decides_login (s : Store) (u : User.t) (v : bool)
  (sess : Session) (lb : Body) :
  uniqueEmails s -> uniqueIds s -> In u (users s) ->
  prop lb "email" = JStr (User.email u) ->
  prop lb "password" = JStr (User.password u) ->
  prop lb "role" = JStr (roleName (User.role u)) ->
  let s' := fst (updateUserVerification (User._id u) v s) in
  let u' := User.set_verified v u in
  post_login sess lb s'
  = (s', Ok (if v
             then (mkResponse 200 (Some "Login successful")
                     (UserP (sessionUserOf u')),
                   Some (sessionUserOf u'))
             else (reply 401 "Account pending verification", sess))).
Proof.
  intros He Hi Hin Hle Hlp Hlr s' u'.
  assert (Hin' : In u' (users s')).
  { apply (users_after_verification (User._id u) v (users s) u Hi Hin
             eq_refl). }
  assert (He' : uniqueEmails s')
    by now apply updateUserVerification_uniqueEmails.
  pose proof (getUserByEmail_unique s' u' He' Hin') as Hf.
  change (User.email u') with (User.email u) in Hf. rewrite <- Hle in Hf.
  rewrite (post_login_found sess lb s' u' Hf Hlp Hlr).
  reflexivity.
Qed.

Lemma updateOne_other (id : string) (g : User.t -> User.t)
  (l : list User.t) (x : User.t) :
  In x l -> User._id x <> id ->
  In x (updateOne (fun y => String.eqb id (User._id y)) g l).
Proof.
  induction l as [|y l IH]; simpl; [intros []|].
  intros [<-|Hx] Hne.
  - destruct (String.eqb_spec id (User._id y)); [congruence|now left].
  - destruct (String.eqb_spec id (User._id y)); [now right|].
    right. now apply IH.
Qed.

Lemma isPending_spec (u : User.t) :
  isPending u = true <-> User.verified u = false /\ User.role u <> admin.
Proof.
  unfold isPending. destruct (User.verified u), (User.role u); simpl;
    split; try discriminate; try (intros [H1 H2]; congruence);
    intros _; split; congruence.
Qed.

(** X5. An admin's [GET /api/pending-verifications] lists exactly the stored
    users that are unverified patients or doctors.  After
    [updateUserVerification] has verified a stored user (ids being unique)
    that user is no longer listed, and the others are listed as before. *)
Theorem pending_verifications_list (s : Store) (su : SessionUser.t) :
  SessionUser.role su = "admin" ->
  exists pending,
    get_pending_verifications (Some su) s = (s, Ok (inr pending))
    /\ (forall x, In x pending
                  <-> In x (users s) /\ User.verified x = false
                      /\ User.role x <> admin)
    /\ forall u,
         uniqueIds s -> In u (users s) ->
         let s' := fst (updateUserVerification (User._id u) true s) in
         exists pending',
           get_pending_verifications (Some su) s' = (s', Ok (inr pending'))
           /\ forall x, In x pending'
                        <-> In x pending /\ User._id x <> User._id u.
Proof.
  intros Hr.
  assert (Hget : forall t,
             get_pending_verifications (Some su) t
             = (t, Ok (inr (filter isPending (users t))))).
  { intros t. unfold get_pending_verifications.
    rewrite (guarded_pass "admin" su) by exact Hr. reflexivity. }
  exists (filter isPending (users s)). split; [apply Hget|].
  split.
  - intros x. rewrite filter_In, isPending_spec. reflexivity.
  - intros u Hi Hin s'. exists (filter isPending (users s')).
    split; [apply Hget|].
    destruct (users_after_verification (User._id u) true (users s) u Hi Hin
                eq_refl) as [H1 H2].
    intros x. rewrite !filter_In. split.
    + intros [Hx Hp]. destruct (H2 x Hx) as [->|[Hx1 Hx2]].
      * apply isPending_spec in Hp. destruct Hp as [Hp _]. discriminate Hp.
      * repeat split; assumption.
    + intros [[Hx Hp] Hne]. split; [|exact Hp].
      now apply updateOne_other.
Qed.

(** X6. [updateUserVerification] changes nothing but [verified] flags: the
    users keep their ids, names, emails, passwords and roles in the same
    order, a user document that is new carries the flag just set, and
    records, grants and notes are untouched. *)
Theorem updateUserVerification_frame (id : string) (v : bool) (s : Store) :
  let s' := fst (updateUserVerification id v s) in
  map userIdentity (users s') = map userIdentity (users s)
  /\ records s' = records s /\ access s' = access s /\ notes s' = notes s
  /\ (forall x, In x (users s') ->
                In x (users s) \/ User.verified x = v).
Proof.
  simpl. split; [apply updateOne_keeps; reflexivity|].
  repeat split.
  induction (users s) as [|y l IH]; simpl; [intros x []|].
  destruct (String.eqb id (User._id y)).
  - intros x [<-|Hx]; [right; reflexivity | left; now right].
  - intros x [<-|Hx]; [left; now left|].
    destruct (IH x Hx) as [H|H]; [left; now right | now right].
Qed.

(** ** Grants *)

Lemma findOne_insertOne_some {D : Type} (f : D -> bool) (d : D)
  (c : list D) :
  f d = true -> exists x, findOne f (insertOne d c) = Some x.
Proof.
  unfold findOne, insertOne. intros Hd.
  induction c as [|y c IH]; simpl; [rewrite Hd; eauto|].
  destruct (f y); eauto.
Qed.

Lemma findOne_insertOne_miss {D : Type} (f : D -> bool) (d : D)
  (c : list D) :
  f d = false -> findOne f (insertOne d c) = findOne f c.
Proof.
  unfold findOne, insertOne. intros Hd.
  induction c as [|y c IH]; simpl; [now rewrite Hd|].
  destruct (f y); [reflexivity|exact IH].
Qed.

Lemma findOne_deleteOne_disjoint {D : Type} (f g : D -> bool) (c : list D) :
  (forall x, f x = true -> g x = false) ->
  findOne g (deleteOne f c) = findOne g c.
Proof.
  unfold findOne. intros H.
  induction c as [|y c IH]; simpl; [reflexivity|].
  destruct (f y) eqn:E; simpl.
  - now rewrite (H y E).
  - destruct (g y); [reflexivity|exact IH].
Qed.

Lemma pairFilter_disjoint (p d p0 d0 : string) (a : Access.t) :
  ~ (p = p0 /\ d = d0) ->
  pairFilter p0 (JStr d0) a = true ->
  pairFilter p (JStr d) a && Access.granted a = false.
Proof.
  intros Hne H0. apply pairFilter_str in H0. destruct H0 as [Hp Hd].
  rewrite (pairFilter_other_pair p d p0 d0 a Hp Hd Hne). reflexivity.
Qed.

Lemma checkAccess_after_grant (now later : Date) (a : InsertAccess.t) (s : Store) :
  InsertAccess.granted a = true ->
  checkAccess (InsertAccess.patientId a) (InsertAccess.doctorId a)
    (fst (grantAccess now later a s))
  = (fst (grantAccess now later a s), Ok true).
Proof.
  intros Hg. unfold checkAccess. simpl.
  match goal with
  | |- context [findOne ?f (insertOne ?d ?c)] =>
      destruct (findOne_insertOne_some f d c) as [x Hx]
  end.
  - rewrite pairFilter_same_pair by reflexivity. exact Hg.
  - rewrite Hx. reflexivity.
Qed.

(** X7. After [grantAccess] with [granted = true], [checkAccess] for that
    pair answers true, in every store; after a grant stored with
    [granted = false], in a store with at most one document for the pair, it
    answers false. *)
Theorem grant_then_check (now later : Date) (a : InsertAccess.t) (s : Store) :
  let s' := fst (grantAccess now later a s) in
  (InsertAccess.granted a = true ->
   checkAccess (InsertAccess.patientId a) (InsertAccess.doctorId a) s'
   = (s', Ok true))
  /\ (InsertAccess.granted a = false ->
      pairCount (InsertAccess.patientId a) (InsertAccess.doctorId a)
        (access s) <= 1 ->
      checkAccess (InsertAccess.patientId a) (InsertAccess.doctorId a) s'
      = (s', Ok false)).
Proof.
  intros s'. split.
  - intros Hg. now apply checkAccess_after_grant.
  - intros Hg Hc. apply checkAccess_no_grant.
    intros x Hx Hp Hd. subst s'. simpl in Hx.
    unfold insertOne in Hx. apply in_app_or in Hx.
    destruct Hx as [Hx|[<-|[]]]; [|exact Hg].
    exfalso.
    assert (Hz : List.length
                   (filter (pairFilter (InsertAccess.patientId a)
                              (JStr (InsertAccess.doctorId a)))
                      (deleteOne (pairFilter (InsertAccess.patientId a)
                                    (JStr (InsertAccess.doctorId a)))
                         (access s))) = 0).
    { rewrite deleteOne_filter_self. unfold pairCount in Hc. lia. }
    assert (Hin : In x (filter (pairFilter (InsertAccess.patientId a)
                                  (JStr (InsertAccess.doctorId a)))
                          (deleteOne (pairFilter (InsertAccess.patientId a)
                                        (JStr (InsertAccess.doctorId a)))
                             (access s)))).
    { apply filter_In. split; [exact Hx|]. now apply pairFilter_same_pair. }
    destruct (filter _ (deleteOne _ (access s))); [inversion Hin|].
    discriminate Hz.
Qed.

(** X8. Granting or revoking access for one (patientId, doctorId) pair does
    not change what [checkAccess] answers for any other pair. *)
Theorem access_change_is_local (now later : Date) (a : InsertAccess.t)
  (p0 d0 p d : string) (s : Store) :
  (~ (p = InsertAccess.patientId a /\ d = InsertAccess.doctorId a) ->
   snd (checkAccess p d (fst (grantAccess now later a s)))
   = snd (checkAccess p d s))
  /\ (~ (p = p0 /\ d = d0) ->
      snd (checkAccess p d (fst (revokeAccess p0 (JStr d0) s)))
      = snd (checkAccess p d s)).
Proof.
  split; intros Hne; unfold checkAccess; simpl.
  - rewrite findOne_insertOne_miss.
    + rewrite findOne_deleteOne_disjoint; [reflexivity|].
      intros x. now apply pairFilter_disjoint.
    + rewrite (pairFilter_other_pair p d (InsertAccess.patientId a)
                 (InsertAccess.doctorId a)); [reflexivity | reflexivity
                 | reflexivity | exact Hne].
  - rewrite findOne_deleteOne_disjoint; [reflexivity|].
    intros x. now apply pairFilter_disjoint.
Qed.

Lemma findOne_existsb_filter {D : Type} (f g h : D -> bool) (c : list D) :
  (forall x, f x = g x && h x) ->
  match findOne f c with
  | Some _ => true
  | None => false
  end = existsb h (filter g c).
Proof.
  unfold findOne. intros H.
  induction c as [|y c IH]; simpl; [reflexivity|].
  rewrite H. destruct (g y); simpl; [|exact IH].
  destruct (h y); simpl; [reflexivity|exact IH].
Qed.

(** X9. [checkAccess(patientId, doctorId)] answers true exactly when the
    doctor is among the grants [getPatientAccess(patientId)] returns, and
    exactly when the patient is among those [getDoctorAccess(doctorId)]
    returns. *)
Theorem checkAccess_agrees_with_lists (p d : string) (s : Store) :
  exists lp ld,
    getPatientAccess p s = (s, Ok lp)
    /\ getDoctorAccess d s = (s, Ok ld)
    /\ checkAccess p d s
       = (s, Ok (existsb (fun a => String.eqb d (Access.doctorId a)) lp))
    /\ checkAccess p d s
       = (s, Ok (existsb (fun a => String.eqb p (Access.patientId a)) ld)).
Proof.
  eexists. eexists. split; [reflexivity|]. split; [reflexivity|].
  unfold checkAccess, findAll. split; do 2 f_equal;
    apply findOne_existsb_filter; intros x; unfold pairFilter, bsonMatch.
  - destruct (String.eqb p (Access.patientId x)),
      (String.eqb d (Access.doctorId x)), (Access.granted x); reflexivity.
  - destruct (String.eqb p (Access.patientId x)),
      (String.eqb d (Access.doctorId x)), (Access.granted x); reflexivity.
Qed.

(** ** Reading records *)

Lemma insertDesc_perm {D : Type} (key : D -> Date) (d : D) (c : list D) :
  Permutation (insertDesc key d c) (d :: c).
Proof.
  induction c as [|x c IH]; simpl; [reflexivity|].
  destruct (key x <=? key d)%Z; [reflexivity|].
  rewrite IH. apply perm_swap.
Qed.

Lemma sortDesc_perm {D : Type} (key : D -> Date) (c : list D) :
  Permutation (sortDesc key c) c.
Proof.
  unfold sortDesc. induction c as [|x c IH]; simpl; [reflexivity|].
  rewrite insertDesc_perm. now constructor.
Qed.

Lemma insertDesc_sorted {D : Type} (key : D -> Date) (d : D) (c : list D) :
  newestFirst key c -> newestFirst key (insertDesc key d c).
Proof.
  unfold newestFirst. induction c as [|x c IH]; simpl; intros Hs.
  - constructor; constructor.
  - inversion Hs as [|? ? Hc Hx]; subst.
    destruct (key x <=? key d)%Z eqn:E.
    + apply Z.leb_le in E. constructor; [exact Hs|].
      constructor; [exact E|].
      rewrite Forall_forall in *. intros y Hy. specialize (Hx y Hy). lia.
    + apply Z.leb_gt in E. constructor; [now apply IH|].
      rewrite Forall_forall in *. intros y Hy.
      apply (Permutation_in _ (insertDesc_perm key d c)) in Hy.
      destruct Hy as [<-|Hy]; [lia|now apply Hx].
Qed.

Lemma sortDesc_sorted {D : Type} (key : D -> Date) (c : list D) :
  newestFirst key (sortDesc key c).
Proof.
  unfold sortDesc. induction c as [|x c IH]; simpl.
  - constructor.
  - now apply insertDesc_sorted.
Qed.

Lemma sortDesc_findAll_In {D : Type} (key : D -> Date) (f : D -> bool)
  (c : list D) (x : D) :
  In x (sortDesc key (findAll f c)) <-> In x c /\ f x = true.
Proof.
  unfold findAll. rewrite <- filter_In. split.
  - apply Permutation_in, sortDesc_perm.
  - apply Permutation_in, Permutation_sym, sortDesc_perm.
Qed.

Lemma get_records_patient (su : SessionUser.t) (s : Store) :
  SessionUser.role su = "patient" ->
  get_records (Some su) s
  = (s, Ok (mkResponse 200 None
              (RecordsP
                 (sortDesc MedRecord.uploadDate
                    (findAll (fun r => String.eqb (SessionUser._id su)
                                         (MedRecord.patientId r))
                       (records s)))))).
Proof.
  intros Hr. unfold get_records, authenticated, requireAuth, tryCatch.
  rewrite Hr. reflexivity.
Qed.

(** X10. [getRecordsByPatient(patientId)] returns the records of that patient
    and no others, each as often as it is stored, newest upload first; it
    does not write. *)
Theorem getRecordsByPatient_exact (p : string) (s : Store) :
  exists recs,
    getRecordsByPatient p s = (s, Ok recs)
    /\ Permutation recs
         (filter (fun r => String.eqb p (MedRecord.patientId r)) (records s))
    /\ (forall r, In r recs
                  <-> In r (records s) /\ MedRecord.patientId r = p)
    /\ newestFirst MedRecord.uploadDate recs.
Proof.
  eexists. split; [reflexivity|].
  split; [apply sortDesc_perm|]. split; [|apply sortDesc_sorted].
  intros r. rewrite sortDesc_findAll_In, String.eqb_eq.
  split; intros [H1 H2]; split; auto.
Qed.

(** X11. [GET /api/records] gives a patient exactly the records whose
    [patientId] is the session user's id, newest first, and gives an admin
    every stored record in collection order. *)
Theorem get_records_by_role (su : SessionUser.t) (s : Store) :
  (SessionUser.role su = "patient" ->
   exists recs,
     get_records (Some su) s = (s, Ok (mkResponse 200 None (RecordsP recs)))
     /\ (forall r, In r recs
                   <-> In r (records s)
                       /\ MedRecord.patientId r = SessionUser._id su)
     /\ newestFirst MedRecord.uploadDate recs)
  /\ (SessionUser.role su = "admin" ->
      get_records (Some su) s
      = (s, Ok (mkResponse 200 None (RecordsP (records s))))).
Proof.
  split; intros Hr.
  - eexists. split; [now apply get_records_patient|].
    split; [|apply sortDesc_sorted].
    intros r. rewrite sortDesc_findAll_In, String.eqb_eq.
    split; intros [H1 H2]; split; auto.
  - unfold get_records, authenticated, requireAuth, tryCatch.
    rewrite Hr. simpl. unfold bind, getAllRecords, findAll.
    assert (E : forall l : list MedRecord.t, filter (fun _ => true) l = l).
    { induction l as [|x l IH]; simpl; [reflexivity | now rewrite IH]. }
    now rewrite E.
Qed.

(** ** Granting and revoking through the routes *)

Lemma get_records_granted (su : SessionUser.t) (p : string) (s : Store) :
  SessionUser.role su = "doctor" ->
  checkAccess p (SessionUser._id su) s = (s, Ok true) ->
  exists recs,
    get_records_patientId (Some su) p s
    = (s, Ok (mkResponse 200 None (RecordsP recs)))
    /\ getRecordsByPatient p s = (s, Ok recs).
Proof.
  intros Hr Hc. unfold get_records_patientId.
  rewrite (guarded_pass "doctor" su) by exact Hr.
  unfold tryCatch, bind. rewrite Hc. simpl.
  eexists. split; reflexivity.
Qed.

(** X12. A [POST /api/grant-access] answered 200 comes from a patient
    session and names a stored, verified doctor; it stores an active grant
    from the session user to that doctor, stamped with the time of the
    insert, after which [checkAccess] answers
    true and that doctor's [GET /api/records/:patientId] for the patient is
    answered 200 with the patient's records. *)
Theorem grant_enables_doctor (now later : Date) (sess : Session) (body : Body)
  (s s' : Store) (r : Response) :
  post_grant_access now later sess body s = (s', Ok r) ->
  status r = 200 ->
  exists su doc acc,
    sess = Some su /\ SessionUser.role su = "patient"
    /\ In doc (users s) /\ User.role doc = doctor
    /\ User.verified doc = true
    /\ bsonMatch (prop body "doctorEmail") (User.email doc) = true
    /\ In acc (access s')
    /\ Access.patientId acc = SessionUser._id su
    /\ Access.doctorId acc = User._id doc
    /\ Access.granted acc = true
    /\ Access.grantedAt acc = now
    /\ checkAccess (SessionUser._id su) (User._id doc) s' = (s', Ok true)
    /\ forall dsess,
         SessionUser.role dsess = "doctor" ->
         SessionUser._id dsess = User._id doc ->
         exists recs,
           get_records_patientId (Some dsess) (SessionUser._id su) s'
           = (s', Ok (mkResponse 200 None (RecordsP recs)))
           /\ getRecordsByPatient (SessionUser._id su) s' = (s', Ok recs).
Proof.
  unfold post_grant_access. open_guard su Hrole c m Hc.
  - unfold tryCatch, bind, liftResult, getUserByEmail.
    destruct (findOne _ (users s)) as [doc|] eqn:F;
      [|intros H Hs; inversion H; subst; discriminate].
    destruct (Role_eqb (User.role doc) doctor) eqn:Er;
      [|intros H Hs; inversion H; subst; discriminate].
    destruct (User.verified doc) eqn:Ev;
      [|intros H Hs; inversion H; subst; discriminate].
    cbn [negb orb]. cbv beta iota.
    change (insertAccessSchema
              [("patientId", JStr (SessionUser._id su));
               ("doctorId", JStr (User._id doc)); ("granted", JBool true)])
      with (Ok (InsertAccess.mk (SessionUser._id su) (User._id doc) true)).
    cbv beta iota.
    pose proof (checkAccess_after_grant now later
                  (InsertAccess.mk (SessionUser._id su) (User._id doc) true)
                  s eq_refl) as Hchk.
    cbn [InsertAccess.patientId InsertAccess.doctorId] in Hchk.
    intros H Hs. unfold grantAccess, ret in H. cbv beta iota zeta in H.
    inversion H; subst s' r. clear H.
    apply find_some in F. destruct F as [Hin Hm].
    exists su, doc,
      (Access.mk (oidString (nextId s)) (SessionUser._id su) (User._id doc)
         true now).
    split; [reflexivity|]. split; [now apply only_role|].
    split; [exact Hin|]. split; [now apply Role_eqb_eq|].
    split; [exact Ev|]. split; [exact Hm|].
    split; [cbn [access]; unfold insertOne;
            apply in_or_app; right; now left|].
    split; [reflexivity|]. split; [reflexivity|]. split; [reflexivity|].
    split; [reflexivity|].
    split; [exact Hchk|].
    intros dsess Hd Hid. apply get_records_granted; [exact Hd|].
    rewrite Hid. exact Hchk.
  - unfold ret. intros H Hs. inversion H; subst. simpl in Hs.
    destruct Hc; subst; discriminate.
Qed.

Lemma filter_deleteOne_disjoint {D : Type} (f g : D -> bool) (c : list D) :
  (forall x, f x = true -> g x = false) ->
  filter g (deleteOne f c) = filter g c.
Proof.
  intros H. induction c as [|y c IH]; simpl; [reflexivity|].
  destruct (f y) eqn:E; simpl.
  - now rewrite (H y E).
  - now rewrite IH.
Qed.

Lemma deleteOne_incl {D : Type} (f : D -> bool) (c : list D) (x : D) :
  In x (deleteOne f c) -> In x c.
Proof.
  induction c as [|y c IH]; simpl; [intros []|].
  destruct (f y); [now right|]. intros [<-|H]; [now left|right; now apply IH].
Qed.

Lemma deleteOne_length {D : Type} (f : D -> bool) (c : list D) :
  List.length c <= S (List.length (deleteOne f c)).
Proof.
  induction c as [|y c IH]; simpl; [lia|].
  destruct (f y); simpl; lia.
Qed.

(** X13. Whatever its body holds, [POST /api/revoke-access] removes at most
    one Access document and only one whose [patientId] is the session
    user's id: the grants of every other patient stay as they are, and so do
    users, records and notes. *)
Theorem revoke_touches_own_grants_only (sess : Session) (body : Body)
  (s : Store) :
  let s' := fst (post_revoke_access sess body s) in
  users s' = users s /\ records s' = records s /\ notes s' = notes s
  /\ (forall a, In a (access s') -> In a (access s))
  /\ List.length (access s) <= S (List.length (access s'))
  /\ forall su,
       sess = Some su ->
       filter (fun a => negb (String.eqb (SessionUser._id su)
                                (Access.patientId a))) (access s')
       = filter (fun a => negb (String.eqb (SessionUser._id su)
                                  (Access.patientId a))) (access s).
Proof.
  unfold post_revoke_access. open_guard su Hrole c m Hc.
  - unfold tryCatch, bind, revokeAccess. simpl.
    repeat split; try reflexivity.
    + intros a. apply deleteOne_incl.
    + apply deleteOne_length.
    + intros su' E. inversion E; subst su'.
      apply filter_deleteOne_disjoint. intros x Hx.
      unfold pairFilter in Hx. apply andb_true_iff in Hx.
      destruct Hx as [Hx _]. now rewrite Hx.
  - simpl. repeat split; auto.
Qed.

(** ** Round trips through the routes *)

(** X14. After a [POST /api/records] answered 200, the same session's
    [GET /api/records] is answered 200 with a list that contains the record
    just stored, which carries the id the response announced. *)
Theorem post_records_then_get_records (now later : Date) (sess : Session)
  (body : Body) (s s' : Store) (r : Response) :
  post_records now later sess body s = (s', Ok r) ->
  status r = 200 ->
  exists rec answered recs,
    records s' = (records s ++ [rec])%list
    /\ payload r = RecordP answered
    /\ MedRecord._id rec = MedRecord._id answered
    /\ get_records sess s' = (s', Ok (mkResponse 200 None (RecordsP recs)))
    /\ In rec recs.
Proof.
  unfold post_records. open_guard su Hrole c m Hc.
  - unfold tryCatch, bind, liftResult.
    destruct (insertRecordSchema _) as [rd|e] eqn:E;
      [|simpl; intros H Hs; inversion H; subst; discriminate].
    apply insertRecordSchema_patientId in E. simpl in E.
    inversion E as [Eid]. clear E.
    unfold createRecord, ret. intros H Hs. inversion H; subst s' r. clear H.
    apply only_role in Hrole.
    exists (MedRecord.mk (oidString (nextId s)) (InsertRecord.patientId rd)
              (InsertRecord.filename rd) (InsertRecord.filePath rd)
              (InsertRecord.description rd) (InsertRecord.fileType rd)
              (InsertRecord.fileSize rd) now).
    eexists. eexists. split; [reflexivity|]. split; [reflexivity|].
    split; [reflexivity|].
    split; [now apply get_records_patient|].
    apply sortDesc_findAll_In. cbn [records]. split.
    + unfold insertOne. apply in_or_app. right. now left.
    + cbn. rewrite Eid. apply String.eqb_refl.
  - unfold ret. intros H Hs. inversion H; subst. simpl in Hs.
    destruct Hc; subst; discriminate.
Qed.

(** X15. A [POST /api/upload] answered 200 has stored one record that
    describes the uploaded file: its name, stored path, MIME type and size,
    with the time of the insert as date.  The MIME type is one of the allowed ones,
    the size is at most [10 * 1024 * 1024], and the description is the text
    field of the request or empty when that field is missing or empty. *)
Theorem upload_records_the_file (now later : Date) (sess : Session)
  (part : option File.t) (fields : Body) (s s' : Store) (r : Response) :
  post_upload now later sess part fields s = (s', Ok (Responded r)) ->
  status r = 200 ->
  exists f rec,
    part = Some f /\ File.fieldname f = "file"
    /\ records s' = (records s ++ [rec])%list
    /\ MedRecord.filename rec = File.originalname f
    /\ MedRecord.filePath rec = File.path f
    /\ MedRecord.fileType rec = File.mimetype f
    /\ In (File.mimetype f) allowedTypes
    /\ MedRecord.fileSize rec = File.size f
    /\ (File.size f <= 10 * 1024 * 1024)%Z
    /\ MedRecord.uploadDate rec = now
    /\ (if truthy (prop fields "description")
        then prop fields "description" = JStr (MedRecord.description rec)
        else MedRecord.description rec = "").
Proof.
  unfold post_upload. open_guard su Hrole c m Hc.
  - destruct (upload_single "file" part) as [err|[f|]] eqn:U.
    + unfold ret. intros H. inversion H.
    + assert (Hf : part = Some f /\ File.fieldname f = "file"
                   /\ In (File.mimetype f) allowedTypes
                   /\ (File.size f <= 10 * 1024 * 1024)%Z).
      { unfold upload_single in U. destruct part as [g|]; [|discriminate].
        destruct (String.eqb_spec (File.fieldname g) "file") as [En|En];
          [|discriminate].
        simpl in U. unfold fileFilter in U.
        destruct (existsb _ allowedTypes) eqn:Ea; [|discriminate].
        destruct (fileSizeLimit <? File.size g)%Z eqn:Ez; [discriminate|].
        inversion U; subst g. apply Z.ltb_ge in Ez.
        apply existsb_exists in Ea. destruct Ea as [x [Hx Hm]].
        apply String.eqb_eq in Hm. subst x. repeat split; assumption. }
      destruct Hf as [Hp [Hn [Ha Hz]]].
      unfold tryCatch, bind, liftResult, insertRecordSchema.
      cbn [prop String.eqb Ascii.eqb Bool.eqb zString zNumber].
      destruct (truthy (prop fields "description")) eqn:Et.
      * destruct (prop fields "description") eqn:Ed;
          try (simpl; intros H Hs; inversion H; subst; discriminate).
        unfold createRecord, ret. simpl. intros H Hs.
        inversion H; subst s' r. clear H.
        eexists f, _. repeat split; try assumption; reflexivity.
      * unfold createRecord, ret. simpl. intros H Hs.
        inversion H; subst s' r. clear H.
        eexists f, _. repeat split; try assumption; reflexivity.
    + unfold tryCatch, ret. intros H Hs. inversion H; subst. discriminate.
  - unfold ret. intros H Hs. inversion H; subst. simpl in Hs.
    destruct Hc; subst; discriminate.
Qed.

(** X16. A [POST /api/notes] answered 200 comes from a doctor session and has
    appended one note whose [doctorId] is the session user's id, whatever the
    body said, and whose [patientId] is the body's; an Access document with
    [granted = true] links the two, and nothing else is written. *)
Theorem note_requires_grant (now later : Date) (sess : Session) (body : Body)
  (s s' : Store) (r : Response) :
  post_notes now later sess body s = (s', Ok r) ->
  status r = 200 ->
  exists su note a,
    sess = Some su /\ SessionUser.role su = "doctor"
    /\ notes s' = (notes s ++ [note])%list
    /\ Note.doctorId note = SessionUser._id su
    /\ prop body "patientId" = JStr (Note.patientId note)
    /\ In a (access s) /\ Access.patientId a = Note.patientId note
    /\ Access.doctorId a = SessionUser._id su /\ Access.granted a = true
    /\ users s' = users s /\ records s' = records s
    /\ access s' = access s.
Proof.
  unfold post_notes. open_guard su Hrole c m Hc.
  - unfold tryCatch, bind, liftResult.
    destruct (insertNoteSchema _) as [nd|e] eqn:E;
      [|simpl; intros H Hs; inversion H; subst; discriminate].
    pose proof (insertNoteSchema_patientId _ _ E) as Hpid. simpl in Hpid.
    assert (Hdid : InsertNote.doctorId nd = SessionUser._id su).
    { unfold insertNoteSchema in E. simpl in E.
      destruct (zString (prop body "patientId")); [|discriminate].
      destruct (zString (prop body "consultationType")); [|discriminate].
      destruct (zString (prop body "content")); [|discriminate].
      destruct (zStringOptional (prop body "diagnosis")); [|discriminate].
      destruct (zStringOptional (prop body "nextAppointment"));
        [|discriminate].
      inversion E. reflexivity. }
    unfold checkAccess.
    destruct (findOne _ (access s)) as [a|] eqn:F;
      [|simpl; intros H Hs; inversion H; subst; discriminate].
    simpl. intros H Hs. inversion H; subst s' r. clear H.
    apply find_some in F. destruct F as [Hin Hm].
    apply andb_true_iff in Hm. destruct Hm as [Hm Hg].
    apply pairFilter_str in Hm. destruct Hm as [Hap Had].
    exists su. eexists. exists a.
    split; [reflexivity|]. split; [now apply only_role|].
    split; [reflexivity|].
    split; [exact Hdid|]. split; [exact Hpid|].
    split; [exact Hin|]. split; [exact Hap|]. split; [exact Had|].
    split; [exact Hg|]. repeat split.
  - unfold ret. intros H Hs. inversion H; subst. simpl in Hs.
    destruct Hc; subst; discriminate.
Qed.

(** ** Notes *)

(** X17. After [createNote], the note just stored, which carries the id of
    the note returned, is among those [getNotesByPatient] returns for its
    patient and among those [getNotesByDoctor] returns for its doctor; each
    list holds exactly the stored notes of that patient or doctor, newest
    first. *)
Theorem createNote_then_lists (now later : Date) (n : InsertNote.t)
  (s : Store) :
  let s' := fst (createNote now later n s) in
  exists doc returned lp ld,
    notes s' = (notes s ++ [doc])%list
    /\ snd (createNote now later n s) = Ok returned
    /\ Note._id doc = Note._id returned
    /\ getNotesByPatient (InsertNote.patientId n) s' = (s', Ok lp)
    /\ getNotesByDoctor (InsertNote.doctorId n) s' = (s', Ok ld)
    /\ In doc lp /\ In doc ld
    /\ (forall x, In x lp
                  <-> In x (notes s')
                      /\ Note.patientId x = InsertNote.patientId n)
    /\ (forall x, In x ld
                  <-> In x (notes s')
                      /\ Note.doctorId x = InsertNote.doctorId n)
    /\ newestFirst Note.createdAt lp /\ newestFirst Note.createdAt ld.
Proof.
  intros s'.
  assert (Hp : forall x,
             In x (sortDesc Note.createdAt
                     (findAll (fun y => String.eqb (InsertNote.patientId n)
                                          (Note.patientId y)) (notes s')))
             <-> In x (notes s')
                 /\ Note.patientId x = InsertNote.patientId n).
  { intros x. rewrite sortDesc_findAll_In, String.eqb_eq.
    split; intros [H1 H2]; split; auto. }
  assert (Hd : forall x,
             In x (sortDesc Note.createdAt
                     (findAll (fun y => String.eqb (InsertNote.doctorId n)
                                          (Note.doctorId y)) (notes s')))
             <-> In x (notes s')
                 /\ Note.doctorId x = InsertNote.doctorId n).
  { intros x. rewrite sortDesc_findAll_In, String.eqb_eq.
    split; intros [H1 H2]; split; auto. }
  exists (Note.mk (oidString (nextId s)) (InsertNote.doctorId n)
            (InsertNote.patientId n) (InsertNote.consultationType n)
            (InsertNote.content n) (InsertNote.diagnosis n)
            (InsertNote.nextAppointment n) now).
  eexists. eexists. eexists.
  split; [reflexivity|]. split; [reflexivity|]. split; [reflexivity|].
  split; [reflexivity|]. split; [reflexivity|].
  assert (Hin : In (Note.mk (oidString (nextId s)) (InsertNote.doctorId n)
                      (InsertNote.patientId n)
                      (InsertNote.consultationType n) (InsertNote.content n)
                      (InsertNote.diagnosis n) (InsertNote.nextAppointment n)
                      now) (notes s')).
  { subst s'. simpl. unfold insertOne. apply in_or_app. right. now left. }
  split; [apply Hp; now split|]. split; [apply Hd; now split|].
  split; [exact Hp|]. split; [exact Hd|].
  split; apply sortDesc_sorted.
Qed.

(** ** What is never written *)

Lemma perform_appends (c : StorageCall) (s : Store) :
  exists lu lr ln,
    map userIdentity (users (perform c s))
    = (map userIdentity (users s) ++ lu)%list
    /\ records (perform c s) = (records s ++ lr)%list
    /\ notes (perform c s) = (notes s ++ ln)%list.
Proof.
  destruct c; simpl.
  - eexists. exists [], [].
    split; [unfold insertOne; rewrite map_app; reflexivity|].
    now rewrite !app_nil_r.
  - exists [], [], []. rewrite !app_nil_r. split; [|now split].
    apply updateOne_keeps. reflexivity.
  - exists []. eexists. exists [].
    split; [now rewrite app_nil_r|]. split; [reflexivity|].
    now rewrite app_nil_r.
  - exists [], [], []. rewrite !app_nil_r. repeat split.
  - exists [], [], []. rewrite !app_nil_r. repeat split.
  - exists [], []. eexists.
    split; [now rewrite app_nil_r|]. split; [now rewrite app_nil_r|].
    reflexivity.
Qed.

(** X18. No sequence of storage calls removes or alters a record or a note,
    removes a user, or changes anything of a user but the [verified] flag:
    users, records and notes only grow at the end. *)
Theorem storage_calls_only_append (cs : list StorageCall) (s : Store) :
  exists lu lr ln,
    map userIdentity (users (performAll cs s))
    = (map userIdentity (users s) ++ lu)%list
    /\ records (performAll cs s) = (records s ++ lr)%list
    /\ notes (performAll cs s) = (notes s ++ ln)%list.
Proof.
  unfold performAll. revert s.
  induction cs as [|c cs IH]; intros s; simpl.
  - exists [], [], []. now rewrite !app_nil_r.
  - destruct (IH (perform c s)) as [lu [lr [ln [Hu [Hr Hn]]]]].
    destruct (perform_appends c s) as [lu0 [lr0 [ln0 [Hu0 [Hr0 Hn0]]]]].
    exists (lu0 ++ lu)%list, (lr0 ++ lr)%list, (ln0 ++ ln)%list.
    rewrite Hu, Hr, Hn, Hu0, Hr0, Hn0, !app_assoc. repeat split.
Qed.

(** X19. The reading routes never write: whatever the session, the path
    parameter or the outcome, the store is the same afterwards. *)
Theorem reading_routes_do_not_write (sess : Session) (p : string)
  (s : Store) :
  fst (get_records_patientId sess p s) = s
  /\ fst (get_records sess s) = s
  /\ fst (get_me sess s) = s
  /\ fst (get_pending_verifications sess s) = s
  /\ fst (get_users sess s) = s.
Proof.
  split; [|split; [|split; [|split]]].
  - unfold get_records_patientId. open_guard su Hrole c m Hc; [|reflexivity].
    unfold tryCatch, bind, checkAccess.
    destruct (findOne _ (access s)); reflexivity.
  - unfold get_records, authenticated, requireAuth.
    destruct sess as [u|]; [|reflexivity].
    unfold tryCatch.
    destruct (String.eqb (SessionUser.role u) "patient"); [reflexivity|].
    destruct (String.eqb (SessionUser.role u) "admin"); reflexivity.
  - unfold get_me, authenticated, requireAuth.
    destruct sess; reflexivity.
  - unfold get_pending_verifications.
    open_guard su Hrole c m Hc; reflexivity.
  - unfold get_users. open_guard su Hrole c m Hc; reflexivity.
Qed.

(** ** The client and the server *)

Lemma zStringMin_ok (n : nat) (x : string) :
  n <= String.length x -> zStringMin n (JStr x) = Some x.
Proof.
  intros H. unfold zStringMin. apply Nat.leb_le in H. now rewrite H.
Qed.

Lemma zEmail_ok (x : string) : isEmail x = true -> zEmail (JStr x) = Some x.
Proof. intros H. unfold zEmail. now rewrite H. Qed.

Lemma registerSchema_fields (o : Body) (d : RegisterFormData.t) :
  registerSchema o = Ok d ->
  1 <= String.length (RegisterFormData.name d)
  /\ isEmail (RegisterFormData.email d) = true
  /\ 6 <= String.length (RegisterFormData.password d).
Proof.
  unfold registerSchema.
  destruct (zStringMin 1 (prop o "name")) as [n|] eqn:En; [|discriminate].
  destruct (zEmail (prop o "email")) as [e|] eqn:Ee; [|discriminate].
  destruct (zStringMin 6 (prop o "password")) as [pw|] eqn:Ep;
    [|discriminate].
  destruct (zRole (prop o "role")); [|discriminate].
  destruct (zStringOptional (prop o "specialty")); [|discriminate].
  intros H. inversion H; subst. simpl.
  apply zStringMin_str in En. apply zEmail_str in Ee.
  apply zStringMin_str in Ep.
  destruct En as [_ En]. destruct Ee as [_ Ee]. destruct Ep as [_ Ep].
  repeat split; assumption.
Qed.

(** X20. Form data that passes the registration form's [registerSchema],
    sent as [register] sends it, passes the server's [insertUserSchema] with
    [verified] defaulting to false; so [POST /api/register] answers it 201,
    or 400 'User already exists with this email', never 'Registration
    failed'. *)
Theorem form_registration_passes_validation (o : Body)
  (d : RegisterFormData.t) :
  registerSchema o = Ok d ->
  insertUserSchema (registerRequest d)
  = Ok (InsertUser.mk (RegisterFormData.name d) (RegisterFormData.email d)
          (RegisterFormData.password d) (RegisterFormData.role d) false
          (RegisterFormData.specialty d))
  /\ forall now later s,
       exists r,
         snd (post_register now later (registerRequest d) s) = Ok r
         /\ (status r = 201
             \/ r = reply 400 "User already exists with this email").
Proof.
  intros H. apply registerSchema_fields in H. destruct H as [Hn [He Hp]].
  assert (E : insertUserSchema (registerRequest d)
              = Ok (InsertUser.mk (RegisterFormData.name d)
                      (RegisterFormData.email d)
                      (RegisterFormData.password d)
                      (RegisterFormData.role d) false
                      (RegisterFormData.specialty d))).
  { unfold insertUserSchema, registerRequest. destruct d as [n e pw r sp].
    cbn [RegisterFormData.name RegisterFormData.email
         RegisterFormData.password RegisterFormData.role
         RegisterFormData.specialty] in *.
    cbn -[zStringMin zEmail zRole zStringOptional zBooleanDefault].
    rewrite (zStringMin_ok 1 n Hn), (zEmail_ok e He),
      (zStringMin_ok 6 pw Hp).
    rewrite (proj2 (zRole_roleName (JStr (roleName r)) r) eq_refl).
    destruct sp; reflexivity. }
  split; [exact E|].
  intros now later s. unfold post_register, tryCatch, bind, liftResult.
  rewrite E. unfold getUserByEmail.
  destruct (findOne _ (users s)).
  - eexists. split; [reflexivity|]. now right.
  - eexists. split; [reflexivity|]. now left.
Qed.

(** X21. The sign-in form's [loginSchema] accepts the email, password and
    role of every payload that [insertUserSchema] accepts, and the request
    [login] then sends carries exactly these three values. *)
Theorem registered_credentials_pass_login_form (body : Body)
  (ud : InsertUser.t) :
  insertUserSchema body = Ok ud ->
  let d := LoginFormData.mk (InsertUser.email ud) (InsertUser.password ud)
             (InsertUser.role ud) in
  loginSchema body = Ok d
  /\ prop (loginRequest d) "email" = prop body "email"
  /\ prop (loginRequest d) "password" = prop body "password"
  /\ prop (loginRequest d) "role" = prop body "role".
Proof.
  intros H d. apply insertUserSchema_fields in H.
  destruct H as [He [Hp [Hr [Hl Hm]]]].
  unfold loginSchema. rewrite He, Hp, Hr.
  rewrite (zEmail_ok _ Hm), (zStringMin_ok 6 _ Hl).
  rewrite (proj2 (zRole_roleName _ _) eq_refl).
  repeat split.
Qed.

(** X22. Without a selected patient [handleAddNote] sends nothing.  With one,
    the request it builds from any form data passes the server's
    [insertNoteSchema] for that patient and the session doctor, so
    [POST /api/notes] answers it 200 or 403, never 500; and whatever passes
    the form's [noteSchema] passes the server's schema too. *)
Theorem note_form_passes_validation (d : NoteFormData.t) (pid : string)
  (su : SessionUser.t) :
  handleAddNote None d = None
  /\ (exists body,
        handleAddNote (Some pid) d = Some body
        /\ insertNoteSchema (spread body "doctorId" (JStr (SessionUser._id su)))
           = Ok (InsertNote.mk (SessionUser._id su) pid
                   (NoteFormData.consultationType d) (NoteFormData.content d)
                   (NoteFormData.diagnosis d)
                   (NoteFormData.nextAppointment d))
        /\ (SessionUser.role su = "doctor" ->
            forall now later s,
              exists r,
                snd (post_notes now later (Some su) body s) = Ok r
                /\ (status r = 200 \/ status r = 403)))
  /\ forall o,
       noteFormSchema o = Ok d ->
       exists nd,
         insertNoteSchema (spread o "doctorId" (JStr (SessionUser._id su)))
         = Ok nd.
Proof.
  split; [reflexivity|]. split.
  - eexists. split; [reflexivity|].
    assert (E : insertNoteSchema
                  (spread
                     ([("patientId", JStr pid);
                       ("consultationType",
                         JStr (NoteFormData.consultationType d));
                       ("content", JStr (NoteFormData.content d))]
                      ++ optionalProp "diagnosis" (NoteFormData.diagnosis d)
                      ++ optionalProp "nextAppointment"
                           (NoteFormData.nextAppointment d))%list
                     "doctorId" (JStr (SessionUser._id su)))
                = Ok (InsertNote.mk (SessionUser._id su) pid
                        (NoteFormData.consultationType d)
                        (NoteFormData.content d) (NoteFormData.diagnosis d)
                        (NoteFormData.nextAppointment d))).
    { destruct d as [p ct c dg na]. unfold insertNoteSchema. simpl.
      destruct dg, na; reflexivity. }
    split; [exact E|].
    intros Hr now later s. unfold post_notes.
    rewrite (guarded_pass "doctor" su) by exact Hr.
    unfold tryCatch, bind, liftResult. rewrite E. unfold checkAccess.
    destruct (findOne _ (access s)).
    + eexists. split; [reflexivity|]. now left.
    + eexists. split; [reflexivity|]. now right.
  - intros o. unfold noteFormSchema, insertNoteSchema. simpl.
    destruct (zStringMin 1 (prop o "patientId")) as [x1|] eqn:E1;
      [|discriminate].
    destruct (zStringMin 1 (prop o "consultationType")) as [x2|] eqn:E2;
      [|discriminate].
    destruct (zStringMin 10 (prop o "content")) as [x3|] eqn:E3;
      [|discriminate].
    destruct (zStringOptional (prop o "diagnosis")); [|discriminate].
    destruct (zStringOptional (prop o "nextAppointment")); [|discriminate].
    apply zStringMin_str in E1. apply zStringMin_str in E2.
    apply zStringMin_str in E3.
    destruct E1 as [-> _]. destruct E2 as [-> _]. destruct E3 as [-> _].
    simpl. eauto.
Qed.

(** X23. [ProtectedRoute] shows its children only to a loaded user whose role
    is the required one, and then sets no location; once loading is over,
    whenever it renders nothing it sets a location: the sign-in page without
    a user, and otherwise the dashboard of the user's own role. *)
Theorem ProtectedRoute_guards (isLoading : bool)
  (user : option SessionUser.t) (requiredRole : option Role) :
  (ProtectedRoute_render isLoading user requiredRole = Children ->
   isLoading = false
   /\ ProtectedRoute_redirect isLoading user requiredRole = None
   /\ exists u, user = Some u
                /\ forall r, requiredRole = Some r ->
                             SessionUser.role u = roleName r)
  /\ (isLoading = false ->
      ProtectedRoute_render isLoading user requiredRole = Nothing ->
      match user with
      | None =>
          ProtectedRoute_redirect isLoading user requiredRole = Some "/"
      | Some u =>
          ProtectedRoute_redirect isLoading user requiredRole
          = Some (redirectPath (SessionUser.role u))
          /\ forall r, SessionUser.role u = roleName r ->
                       redirectPath (SessionUser.role u)
                       = match r with
                         | patient => "/dashboard/overview"
                         | doctor => "/doctor/overview"
                         | admin => "/admin/overview"
                         end
      end).
Proof.
  unfold ProtectedRoute_render, ProtectedRoute_redirect. split.
  - destruct isLoading; [discriminate|].
    destruct user as [u|]; [|discriminate].
    destruct requiredRole as [r|].
    + destruct (String.eqb_spec (SessionUser.role u) (roleName r)) as [E|E];
        simpl; [|discriminate].
      intros _. repeat split. exists u. split; [reflexivity|].
      intros r' Hr'. inversion Hr'; subst. exact E.
    + intros _. repeat split. exists u. split; [reflexivity|].
      intros r' Hr'. discriminate Hr'.
  - intros -> H. destruct user as [u|]; [|reflexivity].
    destruct requiredRole as [r|]; [|discriminate].
    destruct (String.eqb (SessionUser.role u) (roleName r)); simpl in *;
      [discriminate|].
    split; [reflexivity|]. intros r' ->. now destruct r'.
Qed.

(** X24. A file that [FileUpload] passes on with its default [maxSize] has at
    most [10 * 1024 * 1024] bytes; sent by the patient dashboard under the
    field [file] it is refused by the server's upload middleware exactly when
    its MIME type is not an allowed one.  A larger file is never passed
    on. *)
Theorem selected_file_meets_size_limit (file : BrowserFile.t) (path : string) :
  (handleFileSelect defaultMaxSize file = Some file ->
   (BrowserFile.size file <= 10 * 1024 * 1024)%Z
   /\ (In (BrowserFile.type file) allowedTypes ->
       upload_single "file" (Some (uploadedPart file path))
       = inr (Some (uploadedPart file path)))
   /\ (~ In (BrowserFile.type file) allowedTypes ->
       exists reason,
         upload_single "file" (Some (uploadedPart file path))
         = inl (FilterError reason)))
  /\ ((10 * 1024 * 1024 < BrowserFile.size file)%Z ->
      handleFileSelect defaultMaxSize file = None).
Proof.
  unfold handleFileSelect, defaultMaxSize. split.
  - destruct (10 * 1024 * 1024 <? BrowserFile.size file)%Z eqn:E;
      [discriminate|].
    intros _. apply Z.ltb_ge in E. split; [exact E|].
    unfold upload_single, uploadedPart, fileFilter. simpl File.fieldname.
    cbn [File.mimetype File.size negb String.eqb Ascii.eqb Bool.eqb].
    split.
    + intros Hin.
      assert (Ha : existsb (String.eqb (BrowserFile.type file)) allowedTypes
                   = true).
      { apply existsb_exists. exists (BrowserFile.type file).
        split; [exact Hin|apply String.eqb_refl]. }
      rewrite Ha. unfold fileSizeLimit.
      apply Z.ltb_ge in E. now rewrite E.
    + intros Hnot.
      destruct (existsb (String.eqb (BrowserFile.type file)) allowedTypes)
        eqn:Ha; [|eauto].
      exfalso. apply Hnot. apply existsb_exists in Ha.
      destruct Ha as [x [Hx Hm]]. apply String.eqb_eq in Hm. now subst.
  - intros H. apply Z.ltb_lt in H. now rewrite H.
Qed.

(** ** Registration, uploads and records at the edges *)

(** X25. [POST /api/register] with the email of a stored user is answered 400
    and creates nothing, whatever else the body holds; and registration
    keeps the emails of the stored users pairwise distinct. *)
Theorem register_rejects_known_email (now later : Date) (body : Body) (s : Store) :
  (forall u,
     In u (users s) -> prop body "email" = JStr (User.email u) ->
     exists r,
       post_register now later body s = (s, Ok r) /\ status r = 400)
  /\ (uniqueEmails s -> uniqueEmails (fst (post_register now later body s))).
Proof.
  split; [|apply post_register_uniqueEmails].
  intros u Hin He. unfold post_register, tryCatch, bind, liftResult.
  destruct (insertUserSchema body) as [ud|e] eqn:E.
  - apply insertUserSchema_fields in E. destruct E as [E _].
    rewrite He in E. inversion E as [Ee].
    unfold getUserByEmail, findOne.
    destruct (find _ (users s)) as [x|] eqn:F.
    + eexists. split; reflexivity.
    + exfalso. pose proof (find_none _ _ F u Hin) as Hn. simpl in Hn.
      rewrite String.eqb_refl in Hn. discriminate Hn.
  - eexists. split; reflexivity.
Qed.

(** X26. [POST /api/upload] by a patient without a file part is answered 400
    'No file uploaded'; a file sent under another field name is refused by
    the middleware; an accepted file with a [description] field that is not
    text is answered 500.  None of these writes. *)
Theorem upload_edge_cases (now later : Date) (su : SessionUser.t) (fields : Body)
  (s : Store) :
  SessionUser.role su = "patient" ->
  post_upload now later (Some su) None fields s
  = (s, Ok (Responded (reply 400 "No file uploaded")))
  /\ (forall f,
        File.fieldname f <> "file" ->
        post_upload now later (Some su) (Some f) fields s
        = (s, Ok (Forwarded LIMIT_UNEXPECTED_FILE)))
  /\ (forall f,
        upload_single "file" (Some f) = inr (Some f) ->
        truthy (prop fields "description") = true ->
        zString (prop fields "description") = None ->
        exists r,
          post_upload now later (Some su) (Some f) fields s
          = (s, Ok (Responded r))
          /\ status r = 500).
Proof.
  intros Hr. unfold post_upload.
  rewrite !(guarded_pass "patient" su) by exact Hr.
  split; [reflexivity|]. split.
  - intros f Hf. rewrite (guarded_pass "patient" su) by exact Hr.
    unfold upload_single.
    destruct (String.eqb_spec (File.fieldname f) "file"); [contradiction|].
    reflexivity.
  - intros f Hu Ht Hz. rewrite (guarded_pass "patient" su) by exact Hr.
    rewrite Hu. unfold tryCatch, bind, liftResult, insertRecordSchema.
    cbn [prop String.eqb Ascii.eqb Bool.eqb].
    rewrite Ht, Hz. simpl. eexists. split; reflexivity.
Qed.

(** X27. [POST /api/records] by a patient succeeds for every body that gives
    text for [filename], [filePath], [description] and [fileType] and a
    number for [fileSize], whatever it gives for [patientId], even nothing or
    a value that is not text: the record is stored with these values, the
    session user's id and the time of the insert, and answered with the time
    of the second reading of the clock.  Neither the MIME type nor the size
    is restricted here. *)
Theorem post_records_accepts (now later : Date) (su : SessionUser.t)
  (body : Body) (s : Store) (fn fp ds ft : string) (fs : Z) :
  SessionUser.role su = "patient" ->
  prop body "filename" = JStr fn -> prop body "filePath" = JStr fp ->
  prop body "description" = JStr ds -> prop body "fileType" = JStr ft ->
  prop body "fileSize" = JNum fs ->
  let rec (t : Date) :=
    MedRecord.mk (oidString (nextId s)) (SessionUser._id su) fn fp ds ft fs
      t in
  post_records now later (Some su) body s
  = (mkStore (users s) (insertOne (rec now) (records s)) (access s) (notes s)
       (S (nextId s)),
     Ok (mkResponse 200 (Some "Record created successfully")
           (RecordP (rec later)))).
Proof.
  intros Hr H1 H2 H3 H4 H5 rec. unfold post_records.
  rewrite (guarded_pass "patient" su) by exact Hr.
  unfold tryCatch, bind, liftResult, insertRecordSchema, spread.
  cbn [prop String.eqb Ascii.eqb Bool.eqb].
  rewrite H1, H2, H3, H4, H5. reflexivity.
Qed.

(** ** Sessions are snapshots *)

(** X28. The doctor routes decide from the session and the grants alone: a
    change of a [verified] flag by [updateUserVerification] does not change
    what [GET /api/records/:patientId] or [POST /api/notes] answer to a
    session that is already open. *)
Theorem open_sessions_survive_verification_changes (now later : Date)
  (sess : Session) (p : string) (body : Body) (id : string) (v : bool)
  (s : Store) :
  let s' := fst (updateUserVerification id v s) in
  snd (get_records_patientId sess p s') = snd (get_records_patientId sess p s)
  /\ snd (post_notes now later sess body s') = snd (post_notes now later sess body s).
Proof.
  simpl. split.
  - unfold get_records_patientId. open_guard su Hrole c m Hc; [|reflexivity].
    unfold tryCatch, bind, checkAccess. simpl.
    destruct (findOne _ (access s)); reflexivity.
  - unfold post_notes. open_guard su Hrole c m Hc; [|reflexivity].
    unfold tryCatch, bind, liftResult.
    destruct (insertNoteSchema _); [|reflexivity].
    unfold checkAccess. simpl.
    destruct (findOne _ (access s)); reflexivity.
Qed.

(** ** The routes keep the invariants *)

(** X29. Every writing route keeps both invariants of the data model: if
    emails identify users and each (patientId, doctorId) pair has at most one
    Access document before the request, the same holds after it. *)
Theorem routes_keep_invariants (now later : Date) (sess : Session) (body : Body)
  (part : option File.t) (s : Store) :
  uniqueEmails s /\ atMostOnePerPair (access s) ->
  forall s',
    s' = fst (post_register now later body s)
    \/ s' = fst (post_login sess body s)
    \/ s' = fst (post_records now later sess body s)
    \/ s' = fst (post_upload now later sess part body s)
    \/ s' = fst (post_grant_access now later sess body s)
    \/ s' = fst (post_revoke_access sess body s)
    \/ s' = fst (post_notes now later sess body s) ->
    uniqueEmails s' /\ atMostOnePerPair (access s').
Proof.
  intros [He Ha] s' H.
  destruct H as [-> | [-> | [-> | [-> | [-> | [-> | -> ]]]]]].
  - split; [now apply post_register_uniqueEmails|].
    unfold post_register, tryCatch, bind, liftResult.
    destruct (insertUserSchema body); [|exact Ha].
    unfold getUserByEmail. destruct (findOne _ (users s)); exact Ha.
  - unfold post_login, tryCatch, bind, getUserByEmail.
    destruct (findOne _ (users s)) as [u|]; [|now split].
    destruct (_ || _); [now split|]. destruct (negb _); now split.
  - unfold post_records. open_guard su Hrole c m Hc; [|now split].
    unfold tryCatch, bind, liftResult.
    destruct (insertRecordSchema _); now split.
  - unfold post_upload. open_guard su Hrole c m Hc; [|now split].
    destruct (upload_single "file" part) as [err|[f|]]; try now split.
    unfold tryCatch, bind, liftResult.
    destruct (insertRecordSchema _); now split.
  - unfold post_grant_access. open_guard su Hrole c m Hc; [|now split].
    unfold tryCatch, bind, liftResult, getUserByEmail.
    destruct (findOne _ (users s)) as [u|]; [|now split].
    destruct (_ || _); [now split|].
    split; [exact He|].
    apply (grantAccess_atMostOne now later
             (InsertAccess.mk (SessionUser._id su) (User._id u) true) s Ha).
  - unfold post_revoke_access. open_guard su Hrole c m Hc; [|now split].
    split; [exact He|].
    apply (revokeAccess_atMostOne (SessionUser._id su)
             (prop body "doctorId") s Ha).
  - unfold post_notes. open_guard su Hrole c m Hc; [|now split].
    unfold tryCatch, bind, liftResult.
    destruct (insertNoteSchema _); [|now split].
    unfold checkAccess. destruct (findOne _ (access s)); now split.
Qed.

End Server.

(** * Worked examples *)

Lemma grant_keeps_one_access_per_pair_witness :
  let s := perform noOperators
             (GrantAccess 400 401 (InsertAccess.mk "1" "2" true)) emptyStore in
  let s2 :=
    fst (grantAccess noOperators 600 601 (InsertAccess.mk "1" "2" true)
           (fst (grantAccess noOperators 500 501 (InsertAccess.mk "1" "2" true)
                   s))) in
  reachable noOperators s
  /\ pairCount noOperators "1" "2" (access s2) = 1
  /\ activeCount noOperators "1" "2" (access s2) = 1.
Proof.
  intros s s2.
  assert (Hr : reachable noOperators s)
    by (apply reachable_step, reachable_empty).
  split; [exact Hr|].
  exact (proj2 (grant_keeps_one_access_per_pair noOperators s Hr)
           500%Z 501%Z 600%Z 601%Z (InsertAccess.mk "1" "2" true)
           (InsertAccess.mk "1" "2" true) eq_refl eq_refl eq_refl).
Defined.

Lemma sampleStore_atMostOne :
  atMostOnePerPair noOperators (access sampleStore).
Proof.
  intros p d. unfold pairCount.
  apply (Nat.le_trans _ _ _ (filter_length_le _ _)). simpl. apply Nat.le_refl.
Defined.

Lemma revoke_then_check_denied_witness :
  let s' := fst (revokeAccess noOperators "1" (JStr "2") sampleStore) in
  atMostOnePerPair noOperators (access sampleStore)
  /\ checkAccess noOperators "1" "2" s' = (s', Ok false)
  /\ get_records_patientId noOperators (Some drBob) "1" s'
     = (s', Ok (reply 403 "Access denied to patient records")).
Proof.
  intros s'. split; [exact sampleStore_atMostOne|].
  destruct (revoke_then_check_denied noOperators sampleStore "1" "2"
              sampleStore_atMostOne) as [Hc Hg].
  split; [exact Hc|]. exact (Hg drBob eq_refl eq_refl).
Defined.

Lemma revoke_idempotent_witness :
  pairCount noOperators "1" "3" (access sampleStore) = 0
  /\ fst (revokeAccess noOperators "1" (JStr "3") sampleStore) = sampleStore
  /\ post_revoke_access noOperators (Some alice) [("doctorId", JStr "3")]
       sampleStore
     = (sampleStore,
        Ok (mkResponse 200 (Some "Access revoked successfully") NoPayload))
  /\ pairCount noOperators "1" "2" (access sampleStore) <= 1
  /\ fst (revokeAccess noOperators "1" (JStr "2")
            (fst (revokeAccess noOperators "1" (JStr "2") sampleStore)))
     = fst (revokeAccess noOperators "1" (JStr "2") sampleStore).
Proof.
  destruct (revoke_idempotent noOperators sampleStore "1" "3") as [H0 _].
  destruct (H0 eq_refl) as [Hs [Hr _]].
  destruct (revoke_idempotent noOperators sampleStore "1" "2") as [_ H1].
  split; [reflexivity|]. split; [exact Hs|].
  split; [exact (Hr alice [("doctorId", JStr "3")] eq_refl eq_refl eq_refl)|].
  split; [apply Nat.le_refl|]. apply H1. apply Nat.le_refl.
Defined.

Lemma doctor_without_grant_denied_witness :
  let body :=
    [("patientId", JStr "1"); ("consultationType", JStr "follow-up");
     ("content", JStr "stable")] in
  get_records_patientId noOperators (Some drBob) "1" ungrantedStore
  = (ungrantedStore, Ok (reply 403 "Access denied to patient records"))
  /\ post_notes noOperators 700 701 (Some drBob) body ungrantedStore
     = (ungrantedStore, Ok (reply 403 "Access denied to patient records"))
  /\ post_notes noOperators 700 701 (Some drBob) [("patientId", JStr "1")]
       ungrantedStore
     = (ungrantedStore,
        Ok (replyError 500 "Failed to add note"
              (ZodError ["consultationType"; "content"]))).
Proof.
  intros body.
  assert (Hno : forall a, In a (access ungrantedStore) ->
                  Access.patientId a = "1" ->
                  Access.doctorId a = SessionUser._id drBob ->
                  Access.granted a = false).
  { intros a []. }
  destruct (doctor_without_grant_denied noOperators ungrantedStore drBob "1"
              eq_refl Hno) as [Hg Hn].
  split; [exact Hg|]. split.
  - exact (proj1 (Hn 700%Z 701%Z body eq_refl)
             (InsertNote.mk "2" "1" "follow-up" "stable" None None) eq_refl).
  - exact (proj1 (proj2 (Hn 700%Z 701%Z [("patientId", JStr "1")] eq_refl))
             (ZodError ["consultationType"; "content"]) eq_refl).
Defined.

(** C3 (as the spec states it) fails: the doctor Bob holds no grant from the
    patient Alice, the store holding no Access document at all; his note for
    her whose body holds nothing but her [patientId] is answered 500, not
    403. *)
Lemma post_notes_invalid_body_not_403 :
  SessionUser.role drBob = "doctor"
  /\ In aliceUser (users ungrantedStore)
  /\ User.role aliceUser = patient
  /\ access ungrantedStore = []
  /\ snd (checkAccess noOperators (User._id aliceUser) (SessionUser._id drBob)
            ungrantedStore)
     = Ok false
  /\ exists r,
       post_notes noOperators 700 701 (Some drBob)
         [("patientId", JStr (User._id aliceUser))] ungrantedStore
       = (ungrantedStore, Ok r)
       /\ status r = 500
       /\ status r <> 403.
Proof.
  split; [reflexivity|]. split; [left; reflexivity|].
  split; [reflexivity|]. split; [reflexivity|]. split; [reflexivity|].
  eexists. split; [reflexivity|]. split; [reflexivity|discriminate].
Qed.

Lemma sampleStore_uniqueEmails : uniqueEmails sampleStore.
Proof.
  unfold uniqueEmails. simpl.
  repeat constructor; simpl; intros H;
    repeat (destruct H as [H|H]; [discriminate H|]); exact H.
Defined.




Lemma register_verified_iff_admin_witness :
  let res := post_register hasAt noOperators 700 701 registerBody sampleStore in
  exists ud u,
    insertUserSchema hasAt registerBody = Ok ud
    /\ InsertUser.verified ud = true
    /\ users (fst res) = (users sampleStore ++ [u])%list
    /\ User.role u = patient
    /\ User.verified u = false.
Proof.
  intros res.
  destruct (register_verified_iff_admin hasAt noOperators 700%Z 701%Z registerBody
              sampleStore (fst res)
              (mkResponse 201 (Some "User registered successfully")
                 (UserIdP "5"))
              eq_refl eq_refl)
    as [ud [u [Hud [Hu [_ [_ [_ [Hrole Hv]]]]]]]].
  exists ud, u.
  assert (Hud' : ud = InsertUser.mk "Dan" "dan@example.org" "secret4" patient
                       true None).
  { cbv in Hud. inversion Hud. reflexivity. }
  split; [exact Hud|]. split; [rewrite Hud'; reflexivity|].
  split; [exact Hu|].
  assert (Hp : User.role u = patient)
    by (rewrite Hrole, Hud'; reflexivity).
  split; [exact Hp|]. rewrite Hv, Hp. reflexivity.
Defined.

Lemma record_owner_is_session_user_witness :
  let s1 := fst (post_records 700 701 (Some alice) recordBody sampleStore) in
  let s2 := fst (post_upload 700 701 (Some alice) (Some scanPart) []
                   sampleStore) in
  (exists rec,
     records s1 = (records sampleStore ++ [rec])%list
     /\ MedRecord.patientId rec = "1")
  /\ (exists rec,
        records s2 = (records sampleStore ++ [rec])%list
        /\ MedRecord.patientId rec = "1").
Proof.
  intros s1 s2. split.
  - destruct (proj1 (record_owner_is_session_user 700%Z 701%Z (Some alice)
                       sampleStore s1
                       (mkResponse 200 (Some "Record created successfully")
                          (RecordP (MedRecord.mk "5" "1" "scan.pdf"
                                      "uploads/scan.pdf" "x-ray"
                                      "application/pdf" 2048 701)))
                       eq_refl)
                recordBody eq_refl)
      as [su [rec [Hsu [_ [Hrec Hpid]]]]].
    exists rec. split; [exact Hrec|].
    inversion Hsu; subst su. exact Hpid.
  - destruct (proj2 (record_owner_is_session_user 700%Z 701%Z (Some alice)
                       sampleStore s2
                       (mkResponse 200 (Some "File uploaded successfully")
                          (RecordP (MedRecord.mk "5" "1" "scan.pdf"
                                      "uploads/file-1-2.pdf" ""
                                      "application/pdf" 2048 701)))
                       eq_refl)
                (Some scanPart) [] eq_refl)
      as [su [rec [Hsu [_ [Hrec Hpid]]]]].
    exists rec. split; [exact Hrec|].
    inversion Hsu; subst su. exact Hpid.
Defined.

Lemma upload_rejected_before_handler_witness :
  ~ In (File.mimetype textFile) allowedTypes
  /\ exists err,
       upload_single "file" (Some textFile) = inl err
       /\ post_upload 700 701 (Some alice) (Some textFile) [] sampleStore
          = (sampleStore, Ok (Forwarded err)).
Proof.
  assert (Hm : ~ In (File.mimetype textFile) allowedTypes).
  { simpl. intros H.
    repeat (destruct H as [H|H]; [discriminate H|]). exact H. }
  split; [exact Hm|].
  destruct (upload_rejected_before_handler 700%Z 701%Z (Some alice) textFile []
              sampleStore (or_introl Hm)) as [err [He [_ Hp]]].
  exists err. split; [exact He|]. exact (Hp alice eq_refl eq_refl).
Defined.

Lemma schema_violation_answers_witness :
  let e1 := ZodError ["name"; "email"; "password"; "role"] in
  let e2 := ZodError ["filename"; "filePath"; "description"; "fileType";
                      "fileSize"] in
  let e3 := ZodError ["patientId"; "consultationType"; "content"] in
  post_register hasAt noOperators 700 701 [] sampleStore
  = (sampleStore, Ok (replyError 400 "Registration failed" e1))
  /\ post_records 700 701 (Some alice) [] sampleStore
     = (sampleStore, Ok (replyError 500 "Failed to create record" e2))
  /\ post_notes noOperators 700 701 (Some drBob) [] sampleStore
     = (sampleStore, Ok (replyError 500 "Failed to add note" e3)).
Proof.
  intros e1 e2 e3.
  destruct (schema_violation_answers hasAt noOperators 700%Z 701%Z [] sampleStore)
    as [H1 [H2 [H3 _]]].
  split; [exact (H1 e1 eq_refl)|].
  split; [exact (H2 alice e2 eq_refl eq_refl)|].
  exact (H3 drBob e3 eq_refl eq_refl).
Defined.

(** C2 (as the spec states it) fails: a patient's [POST /api/records] with an
    empty body violates the insert schema, and the answer is 500, not 400. *)
Lemma post_records_invalid_body_not_400 :
  insertRecordSchema (spread [] "patientId" (JStr (SessionUser._id alice)))
  = Throw (ZodError ["filename"; "filePath"; "description"; "fileType";
                     "fileSize"])
  /\ exists r,
       post_records 700 701 (Some alice) [] sampleStore = (sampleStore, Ok r)
       /\ status r = 500
       /\ status r <> 400.
Proof.
  split; [reflexivity|].
  eexists. split; [reflexivity|]. split; [reflexivity|discriminate].
Qed.

(** ** The routes on their ordinary paths *)

Example login_verified_user :
  post_login noOperators None
    [("email", JStr "bob@example.org"); ("password", JStr "secret2");
     ("role", JStr "doctor")] sampleStore
  = (sampleStore,
     Ok (mkResponse 200 (Some "Login successful") (UserP drBob), Some drBob)).
Proof. reflexivity. Qed.

Example register_duplicate_email :
  post_register hasAt noOperators 700 701
    [("name", JStr "Bobby"); ("email", JStr "bob@example.org");
     ("password", JStr "secret9"); ("role", JStr "admin")] sampleStore
  = (sampleStore, Ok (reply 400 "User already exists with this email")).
Proof. reflexivity. Qed.

Example register_admin_is_verified :
  map User.verified
    (users (fst (post_register hasAt noOperators 700 701
                   [("name", JStr "Eve"); ("email", JStr "eve@example.org");
                    ("password", JStr "secret5"); ("role", JStr "admin");
                    ("verified", JBool false)] emptyStore)))
  = [true].
Proof. reflexivity. Qed.

Example granted_doctor_reads_records :
  let s := fst (post_records 700 701 (Some alice) recordBody sampleStore) in
  get_records_patientId noOperators (Some drBob) "1" s
  = (s, Ok (mkResponse 200 None
              (RecordsP [MedRecord.mk "5" "1" "scan.pdf" "uploads/scan.pdf"
                           "x-ray" "application/pdf" 2048 700]))).
Proof. reflexivity. Qed.

Example granted_doctor_adds_note :
  map Note.patientId
    (notes (fst (post_notes noOperators 700 701 (Some drBob)
                   [("patientId", JStr "1");
                    ("consultationType", JStr "follow-up");
                    ("content", JStr "stable")] sampleStore)))
  = ["1"].
Proof. reflexivity. Qed.

Example grant_replaces_earlier_grant :
  map Access._id
    (access (fst (post_grant_access noOperators 700 701 (Some alice)
                    [("doctorEmail", JStr "bob@example.org")] sampleStore)))
  = ["5"].
Proof. reflexivity. Qed.

Example upload_pdf_creates_record :
  map MedRecord.patientId
    (records (fst (post_upload 700 701 (Some alice)
                     (Some (File.mk "file" "scan.pdf" "application/pdf"
                              (10 * 1024 * 1024) "uploads/file-1-2.pdf"))
                     [] sampleStore)))
  = ["1"].
Proof. reflexivity. Qed.

Example upload_too_large :
  post_upload 700 701 (Some alice)
    (Some (File.mk "file" "scan.pdf" "application/pdf"
             (10 * 1024 * 1024 + 1) "uploads/file-1-2.pdf"))
    [] sampleStore
  = (sampleStore, Ok (Forwarded LIMIT_FILE_SIZE)).
Proof. reflexivity. Qed.

(** With two documents for one pair, a revoke removes the first only: the
    doctor keeps access until the second revoke. *)
Example revoke_with_duplicate_grants :
  let s1 := fst (revokeAccess noOperators "1" (JStr "2") duplicateStore) in
  let s2 := fst (revokeAccess noOperators "1" (JStr "2") s1) in
  snd (checkAccess noOperators "1" "2" s1) = Ok true
  /\ snd (checkAccess noOperators "1" "2" s2) = Ok false
  /\ access s2 <> access s1.
Proof. repeat split; discriminate. Qed.

(** ** Worked examples for the further properties *)

Lemma sampleStore_uniqueIds : uniqueIds sampleStore.
Proof.
  unfold uniqueIds. simpl.
  repeat constructor; simpl; intros H;
    repeat (destruct H as [H|H]; [discriminate H|]); exact H.
Defined.

Lemma guards_refuse_without_role_witness :
  post_records 700 701 (Some drBob) recordBody sampleStore
  = (sampleStore, Ok (reply 403 "Insufficient permissions"))
  /\ post_notes noOperators 700 701 None noteBody sampleStore
     = (sampleStore, Ok (reply 401 "Authentication required"))
  /\ get_users (Some alice) sampleStore
     = (sampleStore, Ok (inl (reply 403 "Insufficient permissions"))).
Proof.
  split; [|split].
  - exact (proj1 (proj1 (guards_refuse_without_role noOperators 700%Z 701%Z
                           (Some drBob) sampleStore) eq_refl) recordBody).
  - exact (proj2 (proj1 (proj2 (guards_refuse_without_role noOperators 700%Z 701%Z
                                  None sampleStore)) eq_refl) noteBody).
  - exact (proj2 (proj1 (proj2 (proj2 (guards_refuse_without_role noOperators
                                         700%Z 701%Z (Some alice) sampleStore)))
                    eq_refl)).
Defined.



Lemma verification_decides_login_witness :
  let s' := fst (updateUserVerification "3" true sampleStore) in
  exists su,
    post_login noOperators None carolLogin s'
    = (s', Ok (mkResponse 200 (Some "Login successful") (UserP su), Some su))
    /\ SessionUser.verified su = true.
Proof.
  intros s'. eexists. split.
  - exact (verification_decides_login noOperators sampleStore carolUser true
             None carolLogin sampleStore_uniqueEmails sampleStore_uniqueIds
             (or_intror (or_intror (or_introl eq_refl)))
             eq_refl eq_refl eq_refl).
  - reflexivity.
Defined.

Lemma pending_verifications_list_witness :
  exists pending,
    get_pending_verifications (Some root) sampleStore
    = (sampleStore, Ok (inr pending))
    /\ In carolUser pending.
Proof.
  destruct (pending_verifications_list sampleStore root eq_refl)
    as [pending [Hg [Hin _]]].
  exists pending. split; [exact Hg|].
  apply Hin. split; [right; right; left; reflexivity|].
  split; [reflexivity|discriminate].
Defined.

Lemma updateUserVerification_frame_witness :
  let s' := fst (updateUserVerification "3" true sampleStore) in
  let carol' := User.set_verified true carolUser in
  In carol' (users s')
  /\ (In carol' (users sampleStore) \/ User.verified carol' = true)
  /\ access s' = access sampleStore.
Proof.
  intros s' carol'.
  assert (Hin : In carol' (users s'))
    by (right; right; left; reflexivity).
  destruct (updateUserVerification_frame "3" true sampleStore)
    as [_ [_ [Ha [_ Hx]]]].
  split; [exact Hin|]. split; [exact (Hx carol' Hin)|exact Ha].
Defined.

Lemma grant_then_check_witness :
  let s' := fst (grantAccess noOperators 700 701 (InsertAccess.mk "1" "3" true)
                   sampleStore) in
  checkAccess noOperators "1" "3" s' = (s', Ok true).
Proof.
  exact (proj1 (grant_then_check noOperators 700%Z 701%Z
                  (InsertAccess.mk "1" "3" true) sampleStore) eq_refl).
Defined.

Lemma access_change_is_local_witness :
  snd (checkAccess noOperators "1" "2"
         (fst (revokeAccess noOperators "1" (JStr "3") sampleStore)))
  = snd (checkAccess noOperators "1" "2" sampleStore).
Proof.
  apply (proj2 (access_change_is_local noOperators 700%Z 701%Z
                  (InsertAccess.mk "1" "3" true) "1" "3" "1" "2"
                  sampleStore)).
  intros [_ H]. discriminate H.
Defined.

Lemma get_records_by_role_witness :
  get_records (Some root) sampleStore
  = (sampleStore, Ok (mkResponse 200 None (RecordsP (records sampleStore))))
  /\ exists recs,
       get_records (Some alice) sampleStore
       = (sampleStore, Ok (mkResponse 200 None (RecordsP recs))).
Proof.
  split.
  - exact (proj2 (get_records_by_role root sampleStore) eq_refl).
  - destruct (proj1 (get_records_by_role alice sampleStore) eq_refl)
      as [recs [H _]].
    exists recs. exact H.
Defined.

Lemma grant_enables_doctor_witness :
  let body := [("doctorEmail", JStr "bob@example.org")] in
  let s' := fst (post_grant_access noOperators 700 701 (Some alice) body
                   sampleStore) in
  exists acc recs,
    In acc (access s') /\ Access.grantedAt acc = 700%Z
    /\ get_records_patientId noOperators (Some drBob) "1" s'
       = (s', Ok (mkResponse 200 None (RecordsP recs))).
Proof.
  intros body s'.
  destruct (grant_enables_doctor noOperators 700%Z 701%Z (Some alice) body
              sampleStore s'
              (mkResponse 200 (Some "Access granted successfully")
                 (AccessP (Access.mk "5" "1" "2" true 701)))
              eq_refl eq_refl)
    as [su [doc [acc [Hs [_ [Hdoc [_ [_ [Hm [Hin [Hpid [Hdid [_ [Hat [_
         Hd]]]]]]]]]]]]]]].
  inversion Hs; subst su.
  assert (Hbob : doc = bobUser).
  { destruct Hdoc as [<-|[<-|[<-|[]]]]; [discriminate Hm|reflexivity
                                        |discriminate Hm]. }
  subst doc.
  destruct (Hd drBob eq_refl eq_refl) as [recs [Hr _]].
  exists acc, recs. split; [exact Hin|]. split; [exact Hat|exact Hr].
Defined.

Lemma revoke_touches_own_grants_only_witness :
  let s' := fst (post_revoke_access noOperators (Some alice)
                   [("doctorId", JObj [("$ne", JNull)])] duplicateStore) in
  users s' = users duplicateStore
  /\ List.length (access duplicateStore) <= S (List.length (access s'))
  /\ filter (fun a => negb (String.eqb "1" (Access.patientId a))) (access s')
     = filter (fun a => negb (String.eqb "1" (Access.patientId a)))
         (access duplicateStore).
Proof.
  intros s'.
  destruct (revoke_touches_own_grants_only noOperators (Some alice)
              [("doctorId", JObj [("$ne", JNull)])] duplicateStore)
    as [Hu [_ [_ [_ [Hl Hf]]]]].
  split; [exact Hu|]. split; [exact Hl|]. exact (Hf alice eq_refl).
Defined.

Lemma post_records_then_get_records_witness :
  let s' := fst (post_records 700 701 (Some alice) recordBody sampleStore) in
  exists rec recs,
    records s' = (records sampleStore ++ [rec])%list
    /\ MedRecord._id rec = "5"
    /\ get_records (Some alice) s'
       = (s', Ok (mkResponse 200 None (RecordsP recs)))
    /\ In rec recs.
Proof.
  intros s'.
  destruct (post_records_then_get_records 700%Z 701%Z (Some alice) recordBody
              sampleStore s'
              (mkResponse 200 (Some "Record created successfully")
                 (RecordP (MedRecord.mk "5" "1" "scan.pdf"
                             "uploads/scan.pdf" "x-ray" "application/pdf"
                             2048 701)))
              eq_refl eq_refl)
    as [rec [answered [recs [Hrec [Hp [Hid [Hg Hin]]]]]]].
  exists rec, recs. split; [exact Hrec|].
  split; [inversion Hp; subst answered; exact Hid|].
  split; [exact Hg|exact Hin].
Defined.

Lemma upload_records_the_file_witness :
  let s' := fst (post_upload 700 701 (Some alice) (Some scanPart) []
                   sampleStore) in
  exists rec,
    records s' = (records sampleStore ++ [rec])%list
    /\ MedRecord.fileType rec = "application/pdf"
    /\ MedRecord.uploadDate rec = 700%Z
    /\ MedRecord.description rec = "".
Proof.
  intros s'.
  destruct (upload_records_the_file 700%Z 701%Z (Some alice) (Some scanPart)
              [] sampleStore s'
              (mkResponse 200 (Some "File uploaded successfully")
                 (RecordP (MedRecord.mk "5" "1" "scan.pdf"
                             "uploads/file-1-2.pdf" "" "application/pdf"
                             2048 701)))
              eq_refl eq_refl)
    as [f [rec [Hf [_ [Hr [_ [_ [Ht [_ [_ [_ [Hu Hd]]]]]]]]]]]].
  inversion Hf; subst f.
  exists rec. split; [exact Hr|]. split; [exact Ht|].
  split; [exact Hu|exact Hd].
Defined.

Lemma note_requires_grant_witness :
  let body := [("patientId", JStr "1"); ("doctorId", JStr "3");
               ("consultationType", JStr "follow-up");
               ("content", JStr "stable")] in
  let s' := fst (post_notes noOperators 700 701 (Some drBob) body
                   sampleStore) in
  exists note,
    notes s' = (notes sampleStore ++ [note])%list
    /\ Note.doctorId note = "2".
Proof.
  intros body s'.
  destruct (note_requires_grant noOperators 700%Z 701%Z (Some drBob) body
              sampleStore s'
              (mkResponse 200 (Some "Note added successfully")
                 (NoteP (Note.mk "5" "2" "1" "follow-up" "stable" None None
                           701)))
              eq_refl eq_refl)
    as [su [note [a [Hs [_ [Hn [Hd _]]]]]]].
  inversion Hs; subst su. exists note. split; [exact Hn|exact Hd].
Defined.

Lemma form_registration_passes_validation_witness :
  registerSchema hasAt registerBody = Ok danForm
  /\ insertUserSchema hasAt (registerRequest danForm)
     = Ok (InsertUser.mk "Dan" "dan@example.org" "secret4" patient false
             None).
Proof.
  split; [reflexivity|].
  exact (proj1 (form_registration_passes_validation hasAt noOperators
                  registerBody danForm eq_refl)).
Defined.

Lemma registered_credentials_pass_login_form_witness :
  loginSchema hasAt registerBody
  = Ok (LoginFormData.mk "dan@example.org" "secret4" patient).
Proof.
  exact (proj1 (registered_credentials_pass_login_form hasAt registerBody
                  (InsertUser.mk "Dan" "dan@example.org" "secret4" patient
                     true None)
                  eq_refl)).
Defined.

Lemma note_form_passes_validation_witness :
  exists body r,
    handleAddNote (Some "1") noteForm = Some body
    /\ snd (post_notes noOperators 700 701 (Some drBob) body sampleStore) = Ok r
    /\ (status r = 200 \/ status r = 403).
Proof.
  destruct (note_form_passes_validation noOperators noteForm "1" drBob)
    as [_ [[body [Hb [_ Hr]]] _]].
  destruct (Hr eq_refl 700%Z 701%Z sampleStore) as [r [H1 H2]].
  exists body, r. split; [exact Hb|]. split; [exact H1|exact H2].
Defined.

Lemma ProtectedRoute_guards_witness :
  ProtectedRoute_redirect false (Some drBob) (Some patient)
  = Some "/doctor/overview"
  /\ ProtectedRoute_redirect false None (Some admin) = Some "/".
Proof.
  split.
  - exact (proj1 (proj2 (ProtectedRoute_guards false (Some drBob)
                           (Some patient)) eq_refl eq_refl)).
  - exact (proj2 (ProtectedRoute_guards false None (Some admin))
             eq_refl eq_refl).
Defined.

Lemma selected_file_meets_size_limit_witness :
  upload_single "file" (Some (uploadedPart scanFile "uploads/file-1-2.pdf"))
  = inr (Some (uploadedPart scanFile "uploads/file-1-2.pdf")).
Proof.
  apply (proj1 (selected_file_meets_size_limit scanFile
                  "uploads/file-1-2.pdf") eq_refl).
  simpl. left. reflexivity.
Defined.

Lemma register_rejects_known_email_witness :
  exists r,
    post_register hasAt noOperators 700 701
      [("email", JStr "bob@example.org")] sampleStore
    = (sampleStore, Ok r)
    /\ status r = 400.
Proof.
  exact (proj1 (register_rejects_known_email hasAt noOperators 700%Z 701%Z
                  [("email", JStr "bob@example.org")] sampleStore)
           bobUser (or_intror (or_introl eq_refl)) eq_refl).
Defined.

Lemma upload_edge_cases_witness :
  post_upload 700 701 (Some alice) None [] sampleStore
  = (sampleStore, Ok (Responded (reply 400 "No file uploaded")))
  /\ exists r,
       post_upload 700 701 (Some alice) (Some scanPart)
         [("description", JArr [JStr "a"; JStr "b"])] sampleStore
       = (sampleStore, Ok (Responded r))
       /\ status r = 500.
Proof.
  destruct (upload_edge_cases 700%Z 701%Z alice
              [("description", JArr [JStr "a"; JStr "b"])] sampleStore
              eq_refl) as [_ [_ H]].
  split.
  - exact (proj1 (upload_edge_cases 700%Z 701%Z alice [] sampleStore eq_refl)).
  - exact (H scanPart eq_refl eq_refl eq_refl).
Defined.

Lemma post_records_accepts_witness :
  let body := [("patientId", JNum 7); ("filename", JStr "a.exe");
               ("filePath", JStr "/tmp/a.exe"); ("description", JStr "");
               ("fileType", JStr "application/x-msdownload");
               ("fileSize", JNum 99999999999)] in
  exists s' rec,
    post_records 700 701 (Some alice) body sampleStore
    = (s', Ok (mkResponse 200 (Some "Record created successfully")
                 (RecordP rec)))
    /\ MedRecord.patientId rec = "1".
Proof.
  intros body. eexists. eexists. split.
  - exact (post_records_accepts 700%Z 701%Z alice body sampleStore "a.exe"
             "/tmp/a.exe" "" "application/x-msdownload" 99999999999%Z
             eq_refl eq_refl eq_refl eq_refl eq_refl eq_refl).
  - reflexivity.
Defined.

Lemma routes_keep_invariants_witness :
  let s' := fst (post_grant_access noOperators 700 701 (Some alice)
                   [("doctorEmail", JStr "bob@example.org")] sampleStore) in
  uniqueEmails s' /\ atMostOnePerPair noOperators (access s').
Proof.
  intros s'.
  apply (routes_keep_invariants hasAt noOperators 700%Z 701%Z (Some alice)
           [("doctorEmail", JStr "bob@example.org")] None sampleStore
           (conj sampleStore_uniqueEmails sampleStore_atMostOne) s').
  right. right. right. right. left. reflexivity.
Defined.
